(** * Portfolio Insights Generator: the transaction processor

    A shallow embedding of [src/transaction_processor.py] (cleaning
    pipeline, ticker index, analytics) together with the properties of
    the specification that concern it.

    Conventions of the embedding.
    - A Python [dict] is an association list in insertion order
      ([dict_get], [dict_set]); a dict never holds a key twice.
    - Python values that reach [clean_data] are the tagged union [value];
      a CSV row is a dict whose values are all [VStr].
    - An uncaught Python exception is [Raise e] in the [result] monad.
    - The primitives of the Python runtime that the program only calls
      ([float], [int], [datetime.strptime], float arithmetic, [round],
      [sum] on floats) are the fields of the class [PyLib]; every theorem
      holds for any implementation of them.
    - Strings are sequences of code points below 256; [strip] and [upper]
      are [str.strip] and [str.upper] on that range. The uppercase of
      U+00B5 and of U+00FF lies above 255: [upper] leaves the two in
      place, and a statement on what [upper] returns excludes them. *)

From Stdlib Require Import ZArith QArith String Ascii List Sorted Permutation Lia.
From Stdlib Require Import DecimalString.
From stdpp Require Import base decidable option list sorting strings gmap.

Local Open Scope string_scope.
Local Open Scope list_scope.
Local Open Scope Z_scope.

(** ** Exceptions *)

Inductive exn :=
  | AttributeError
  | KeyError
  | OverflowError
  | TypeError
  | ValueError.

Inductive result (A : Type) :=
  | Ok (a : A)
  | Raise (e : exn).
Arguments Ok {A} a.
Arguments Raise {A} e.

Definition rbind {A B} (m : result A) (k : A -> result B) : result B :=
  match m with
  | Ok a => k a
  | Raise e => Raise e
  end.

Notation "'do' x <- m ; k" := (rbind m (fun x => k))
  (at level 10, x name, m at level 100, k at level 200).

(** [try: body except (ValueError, KeyError): handler] *)
Definition try_except {A} (body : result A) (handler : A) : result A :=
  match body with
  | Ok a => Ok a
  | Raise ValueError => Ok handler
  | Raise KeyError => Ok handler
  | Raise e => Raise e
  end.

Fixpoint mapM {A B} (f : A -> result B) (l : list A) : result (list B) :=
  match l with
  | [] => Ok []
  | x :: l' => do y <- f x; do ys <- mapM f l'; Ok (y :: ys)
  end.

(** ** Strings: [str.strip], [str.upper], [<] *)

Definition code (c : ascii) : Z := Z.of_N (N_of_ascii c).

(** [str.isspace] below 256: TAB, LF, VT, FF, CR, FS, GS, RS, US, the
    space, NEL (U+0085) and the no-break space (U+00A0). *)
Definition is_space (c : ascii) : bool :=
  let n := code c in
  ((9 <=? n) && (n <=? 13)) || ((28 <=? n) && (n <=? 32))
  || (n =? 133) || (n =? 160).

Fixpoint lstrip (s : string) : string :=
  match s with
  | EmptyString => EmptyString
  | String c s' => if is_space c then lstrip s' else s
  end.

Fixpoint rstrip (s : string) : string :=
  match s with
  | EmptyString => EmptyString
  | String c s' =>
      match rstrip s' with
      | EmptyString => if is_space c then EmptyString else String c EmptyString
      | r => String c r
      end
  end.

Definition strip (s : string) : string := rstrip (lstrip s).

(** [str.upper] of one code point below 256: a to z and the letters
    U+00E0 to U+00FE (U+00F7, the division sign, is no letter) move down
    by 32, and U+00DF becomes "SS". *)
Definition upper_char (c : ascii) : string :=
  let n := code c in
  if ((97 <=? n) && (n <=? 122)) || ((224 <=? n) && (n <=? 254) && negb (n =? 247))
  then String (ascii_of_N (Z.to_N (n - 32))) EmptyString
  else if n =? 223 then "SS"
  else String c EmptyString.

Fixpoint upper (s : string) : string :=
  match s with
  | EmptyString => EmptyString
  | String c s' => upper_char c +:+ upper s'
  end.

(** Truthiness of a string: [not s] holds of the empty string only. *)
Definition str_not (s : string) : bool :=
  match s with
  | EmptyString => true
  | _ => false
  end.

Fixpoint codes (s : string) : list Z :=
  match s with
  | EmptyString => []
  | String c s' => code c :: codes s'
  end.

(** Lexicographic [<] on sequences, as Python compares strings and
    tuples of integers. *)
Fixpoint lex_ltb (a b : list Z) : bool :=
  match a, b with
  | [], [] => false
  | [], _ :: _ => true
  | _ :: _, [] => false
  | x :: a', y :: b' => (x <? y) || ((x =? y) && lex_ltb a' b')
  end.

Definition str_ltb (a b : string) : bool := lex_ltb (codes a) (codes b).

(** ** Dates *)

(** [datetime.datetime] as produced by [strptime] with the format
    ["%Y-%m-%d %H:%M:%S"]: naive, microsecond 0. *)
Record datetime := mkdt {
  year : Z; month : Z; day : Z; hour : Z; minute : Z; second : Z
}.

Global Instance datetime_eq_dec : EqDecision datetime.
Proof. solve_decision. Defined.

Definition dt_fields (d : datetime) : list Z :=
  [year d; month d; day d; hour d; minute d; second d].

Definition dt_ltb (a b : datetime) : bool := lex_ltb (dt_fields a) (dt_fields b).

(** Decimal digits of a non-negative number, zero padded to [w] places. *)
Definition digit (n : Z) : ascii := ascii_of_N (Z.to_N (48 + n mod 10)).

Fixpoint pad (w : nat) (n : Z) : string :=
  match w with
  | O => EmptyString
  | S w' => pad w' (n / 10) +:+ String (digit n) EmptyString
  end.

(** [d.strftime("%Y-%m")] and [d.strftime("%Y-%m-%d")], for a year of
    four digits. *)
Definition strftime_Ym (d : datetime) : string :=
  pad 4 (year d) +:+ "-" +:+ pad 2 (month d).

Definition strftime_Ymd (d : datetime) : string :=
  strftime_Ym d +:+ "-" +:+ pad 2 (day d).

(** ** The Python runtime *)

Class PyLib := {
  float : Type;
  (** [float(s)] on a string; [None] is [ValueError]. *)
  float_of_str : string -> option float;
  (** conversion of an [int] operand; [None] is [OverflowError]. *)
  float_of_int : Z -> option float;
  (** [int(x)] on a float: [ValueError] on nan, [OverflowError] on inf. *)
  int_of_float : float -> result Z;
  float_mul : float -> float -> float;
  float_add : float -> float -> float;
  float_zero : float;
  (** [sum(xs)] of a non-empty sequence of floats (start value [0]). *)
  float_sum : list float -> float;
  (** [round(x, 2)]. *)
  float_round2 : float -> float;
  (** [x < y], [x == y] and [x <= 0]; [x == n], [x < n] and [n < x] for
      an [int] [n]. *)
  float_ltb : float -> float -> bool;
  float_eqb : float -> float -> bool;
  float_le0 : float -> bool;
  float_eq_int : float -> Z -> bool;
  float_lt_int : float -> Z -> bool;
  int_lt_float : Z -> float -> bool;
  (** [int(s)] on a string; [None] is [ValueError]. *)
  int_of_str : string -> option Z;
  (** [datetime.strptime(s, "%Y-%m-%d %H:%M:%S")]; [None] is [ValueError]. *)
  strptime : string -> option datetime;
  (** [int] rejects a string with no digits in it. *)
  int_of_str_blank : forall s, strip s = EmptyString -> int_of_str s = None
}.

(** ** Values and dicts *)

Section Values.
Context `{PyLib}.

Inductive value :=
  | VStr (s : string)
  | VInt (z : Z)
  | VFloat (f : float)
  | VDatetime (d : datetime).

(** Python's [==] on these values. *)
Definition value_eqb (a b : value) : bool :=
  match a, b with
  | VStr s, VStr t => bool_decide (s = t)
  | VInt x, VInt y => x =? y
  | VFloat f, VFloat g => float_eqb f g
  | VFloat f, VInt y => float_eq_int f y
  | VInt x, VFloat g => float_eq_int g x
  | VDatetime d, VDatetime e => bool_decide (d = e)
  | _, _ => false
  end.

(** [v.strip()]: only [str] has the method. *)
Definition py_strip (v : value) : result string :=
  match v with
  | VStr s => Ok (strip s)
  | _ => Raise AttributeError
  end.

Definition of_option {A} (e : exn) (o : option A) : result A :=
  match o with
  | Some a => Ok a
  | None => Raise e
  end.

(** [float(v)] *)
Definition py_float (v : value) : result float :=
  match v with
  | VStr s => of_option ValueError (float_of_str s)
  | VInt z => of_option OverflowError (float_of_int z)
  | VFloat f => Ok f
  | VDatetime _ => Raise TypeError
  end.

(** [int(v)] *)
Definition py_int (v : value) : result Z :=
  match v with
  | VStr s => of_option ValueError (int_of_str s)
  | VInt z => Ok z
  | VFloat f => int_of_float f
  | VDatetime _ => Raise TypeError
  end.

(** [q * p] for an [int] [q] and a [float] [p]. *)
Definition mul_int_float (q : Z) (p : float) : result float :=
  do x <- of_option OverflowError (float_of_int q); Ok (float_mul x p).

End Values.

Section Dict.
Context {K V : Type} `{EqDecision K}.

(** [d.get(k)] *)
Fixpoint dict_get (d : list (K * V)) (k : K) : option V :=
  match d with
  | [] => None
  | (k', v) :: d' => if decide (k' = k) then Some v else dict_get d' k
  end.

(** [d[k] = v]: an existing key keeps its place, a new key goes last. *)
Fixpoint dict_set (d : list (K * V)) (k : K) (v : V) : list (K * V) :=
  match d with
  | [] => [(k, v)]
  | (k', v') :: d' =>
      if decide (k' = k) then (k', v) :: d' else (k', v') :: dict_set d' k v
  end.

(** [dict(pairs)] *)
Definition dict_of (l : list (K * V)) : list (K * V) :=
  fold_left (fun d kv => dict_set d (fst kv) (snd kv)) l [].

Definition keys (d : list (K * V)) : list K := map fst d.

End Dict.

(** ** Sorting *)

Section Sorting.
Context {A K : Type}.

Fixpoint insert_by (lt : K -> K -> bool) (key : A -> K) (x : A) (l : list A) : list A :=
  match l with
  | [] => [x]
  | y :: l' => if lt (key y) (key x) then y :: insert_by lt key x l' else x :: l
  end.

Definition sort_by (lt : K -> K -> bool) (key : A -> K) (l : list A) : list A :=
  foldr (insert_by lt key) [] l.

(** [sorted(l, key=key, reverse=reverse)], for a [<] on keys: a stable
    sort; with [reverse] the order is descending and elements with equal
    keys still keep their original order. *)
Definition py_sorted (lt : K -> K -> bool) (key : A -> K) (reverse : bool)
    (l : list A) : list A :=
  sort_by (if reverse then (fun a b => lt b a) else lt) key l.

(** [a] is not above [b]: the order of the sorted output. *)
Definition key_le (lt : K -> K -> bool) (key : A -> K) (a b : A) : Prop :=
  lt (key b) (key a) = false.

(** [max(l, key=key)] on a non-empty [l] with first element [x]: the
    first of the maximal elements. *)
Definition py_max (lt : K -> K -> bool) (key : A -> K) (x : A) (l : list A) : A :=
  fold_left (fun best y => if lt (key best) (key y) then y else best) l x.

End Sorting.

(** ** Orders that sort *)

(** A [<] that sorts: asymmetric, and [<=] (the negation of [>]) is
    transitive. *)
Class StrictWeak {K} (lt : K -> K -> bool) : Prop := {
  lt_asym : forall a b, lt a b = true -> lt b a = false;
  lt_negtrans : forall a b c, lt b a = false -> lt c b = false -> lt c a = false
}.

(** [<] sorts the keys that satisfy [Q]. *)
Definition sorts_on {K} (lt : K -> K -> bool) (Q : K -> Prop) : Prop :=
  (forall a b, Q a -> Q b -> lt a b = true -> lt b a = false) /\
  (forall a b c, Q a -> Q b -> Q c ->
     lt b a = false -> lt c b = false -> lt c a = false).

(** A strict total order. *)
Class StrictTotal {K} (lt : K -> K -> bool) : Prop := {
  st_asym : forall a b, lt a b = true -> lt b a = false;
  st_trans : forall a b c, lt a b = true -> lt b c = true -> lt a c = true;
  st_total : forall a b, lt a b = false -> lt b a = false -> a = b
}.

(** ** The cleaning pipeline: [clean_data] *)

Section Pipeline.
Context `{PyLib}.

Definition row := list (string * value).

(** The dict literal that [clean_data] appends to [clean]. *)
Record txn := mktxn {
  timestamp : datetime;
  ticker : string;
  action : string;
  quantity : Z;
  price : float;
  trader_id : string
}.

Definition txn_dict (t : txn) : row :=
  [ ("timestamp", VDatetime (timestamp t));
    ("ticker", VStr (ticker t));
    ("action", VStr (action t));
    ("quantity", VInt (quantity t));
    ("price", VFloat (price t));
    ("trader_id", VStr (trader_id t)) ].

(** A row as [csv.DictReader] yields it: every value is a string. *)
Definition csv_row (r : list (string * string)) : row :=
  map (fun kv => (fst kv, VStr (snd kv))) r.

(** *** Phase 1: exact duplicates *)

(** [tuple(sorted(row.items()))]. The keys of a dict are distinct, so the
    comparison of two items is decided by their keys. *)
Definition row_key (r : row) : list (string * value) :=
  py_sorted str_ltb fst false r.

Definition item_eqb (a b : string * value) : bool :=
  bool_decide (fst a = fst b) && value_eqb (snd a) (snd b).

Fixpoint tuple_eqb (a b : list (string * value)) : bool :=
  match a, b with
  | [], [] => true
  | x :: a', y :: b' => item_eqb x y && tuple_eqb a' b'
  | _, _ => false
  end.

(** [key in seen] *)
Definition set_mem (key : list (string * value)) (seen : list (list (string * value))) : bool :=
  existsb (tuple_eqb key) seen.

Record dstate := mkd {
  seen : list (list (string * value));
  unique : list row;
  dupes : Z
}.

Definition dedupe_step (st : dstate) (r : row) : dstate :=
  let key := row_key r in
  if set_mem key (seen st) then mkd (seen st) (unique st) (dupes st + 1)
  else mkd (seen st ++ [key]) (unique st ++ [r]) (dupes st).

Definition dedupe (raw_rows : list row) : dstate :=
  fold_left dedupe_step raw_rows (mkd [] [] 0).

(** *** Phase 2: validation *)

Record vstate := mkv {
  clean : list txn;
  missing_ts : Z;
  missing_ticker : Z;
  missing_price : Z;
  missing_action : Z;
  bad_action : Z;
  bad_price : Z;
  bad_qty : Z;
  parse_err : Z
}.

Definition vinit : vstate := mkv [] 0 0 0 0 0 0 0 0.

Definition incr_missing_ts (s : vstate) : vstate :=
  mkv (clean s) (missing_ts s + 1) (missing_ticker s) (missing_price s)
    (missing_action s) (bad_action s) (bad_price s) (bad_qty s) (parse_err s).
Definition incr_missing_ticker (s : vstate) : vstate :=
  mkv (clean s) (missing_ts s) (missing_ticker s + 1) (missing_price s)
    (missing_action s) (bad_action s) (bad_price s) (bad_qty s) (parse_err s).
Definition incr_missing_price (s : vstate) : vstate :=
  mkv (clean s) (missing_ts s) (missing_ticker s) (missing_price s + 1)
    (missing_action s) (bad_action s) (bad_price s) (bad_qty s) (parse_err s).
Definition incr_missing_action (s : vstate) : vstate :=
  mkv (clean s) (missing_ts s) (missing_ticker s) (missing_price s)
    (missing_action s + 1) (bad_action s) (bad_price s) (bad_qty s) (parse_err s).
Definition incr_bad_action (s : vstate) : vstate :=
  mkv (clean s) (missing_ts s) (missing_ticker s) (missing_price s)
    (missing_action s) (bad_action s + 1) (bad_price s) (bad_qty s) (parse_err s).
Definition incr_bad_price (s : vstate) : vstate :=
  mkv (clean s) (missing_ts s) (missing_ticker s) (missing_price s)
    (missing_action s) (bad_action s) (bad_price s + 1) (bad_qty s) (parse_err s).
Definition incr_bad_qty (s : vstate) : vstate :=
  mkv (clean s) (missing_ts s) (missing_ticker s) (missing_price s)
    (missing_action s) (bad_action s) (bad_price s) (bad_qty s + 1) (parse_err s).
Definition incr_parse_err (s : vstate) : vstate :=
  mkv (clean s) (missing_ts s) (missing_ticker s) (missing_price s)
    (missing_action s) (bad_action s) (bad_price s) (bad_qty s) (parse_err s + 1).
Definition append_clean (s : vstate) (t : txn) : vstate :=
  mkv (clean s ++ [t]) (missing_ts s) (missing_ticker s) (missing_price s)
    (missing_action s) (bad_action s) (bad_price s) (bad_qty s) (parse_err s).

(** [row.get(k, dflt)] and [row[k]] *)
Definition get_or (r : row) (k : string) (dflt : value) : value :=
  default dflt (dict_get r k).

Definition getitem (r : row) (k : string) : result value :=
  of_option KeyError (dict_get r k).

(** [not row.get(k, "").strip()] *)
Definition blank (r : row) (k : string) : result bool :=
  do s <- py_strip (get_or r k (VStr "")); Ok (str_not s).

(** The body of the [try] statement, lines 62 to 87. *)
Definition try_body (st : vstate) (r : row) : result vstate :=
  do ticker <- (do v <- getitem r "ticker"; do s <- py_strip v; Ok (upper s));
  do action <- (do v <- getitem r "action"; do s <- py_strip v; Ok (upper s));
  do price <- (do v <- getitem r "price"; py_float v);
  do quantity <- (do v <- getitem r "quantity"; py_int v);
  do timestamp <- (do v <- getitem r "timestamp"; do s <- py_strip v;
                   of_option ValueError (strptime s));
  do trader_id <- py_strip (get_or r "trader_id" (VStr "UNKNOWN"));
  if negb (bool_decide (action = "BUY") || bool_decide (action = "SELL"))
  then Ok (incr_bad_action st)
  else if float_le0 price then Ok (incr_bad_price st)
  else if quantity <=? 0 then Ok (incr_bad_qty st)
  else Ok (append_clean st (mktxn timestamp ticker action quantity price trader_id)).

(** One iteration of the loop over [unique], lines 45 to 89. *)
Definition validate_step (st : vstate) (r : row) : result vstate :=
  do b <- blank r "timestamp";
  if b then Ok (incr_missing_ts st) else
  do b <- blank r "ticker";
  if b then Ok (incr_missing_ticker st) else
  do b <- blank r "price";
  if b then Ok (incr_missing_price st) else
  do b <- blank r "action";
  if b then Ok (incr_missing_action st) else
  try_except (try_body st r) (incr_parse_err st).

Fixpoint validate_loop (st : vstate) (rows : list row) : result vstate :=
  match rows with
  | [] => Ok st
  | r :: rows' => do st' <- validate_step st r; validate_loop st' rows'
  end.

Definition cleaning_log (d : dstate) (s : vstate) : list (string * Z) :=
  [ ("duplicates", dupes d);
    ("missing_timestamp", missing_ts s);
    ("missing_ticker", missing_ticker s);
    ("missing_price", missing_price s);
    ("missing_action", missing_action s);
    ("invalid_action", bad_action s);
    ("negative_zero_price", bad_price s);
    ("zero_negative_qty", bad_qty s);
    ("parse_errors", parse_err s) ].

(** *** Phase 3: sort, and the whole of [clean_data] *)

Definition clean_data (raw_rows : list row) : result (list txn * list (string * Z)) :=
  let d := dedupe raw_rows in
  do s <- validate_loop vinit (unique d);
  Ok (py_sorted dt_ltb timestamp false (clean s), cleaning_log d s).

End Pipeline.

(** ** The ticker index and the analytics *)

Section Analytics.
Context `{PyLib}.

(** A Python number: [sum] of no floats is the [int] 0. *)
Inductive num :=
  | NInt (z : Z)
  | NFloat (f : float).

Definition num_ltb (a b : num) : bool :=
  match a, b with
  | NInt x, NInt y => x <? y
  | NFloat f, NFloat g => float_ltb f g
  | NInt x, NFloat g => int_lt_float x g
  | NFloat f, NInt y => float_lt_int f y
  end.

Definition py_sum (xs : list float) : num :=
  match xs with
  | [] => NInt 0
  | _ => NFloat (float_sum xs)
  end.

(** [round(x, 2)] *)
Definition py_round2 (x : num) : num :=
  match x with
  | NInt z => NInt z
  | NFloat f => NFloat (float_round2 f)
  end.

Definition build_ticker_index (transactions : list txn) : list (string * list txn) :=
  fold_left
    (fun index t => dict_set index (ticker t) (default [] (dict_get index (ticker t)) ++ [t]))
    transactions [].

Definition get_by_ticker (index : list (string * list txn)) (ticker : string) : list txn :=
  default [] (dict_get index (upper ticker)).

(** [sum(t["quantity"] * t["price"] for t in txns)] *)
Definition dollar_volume (txns : list txn) : result num :=
  do xs <- mapM (fun t => mul_int_float (quantity t) (price t)) txns;
  Ok (py_sum xs).

Fixpoint volume_loop (volume : list (string * num)) (items : list (string * list txn))
    : result (list (string * num)) :=
  match items with
  | [] => Ok volume
  | (ticker, txns) :: items' =>
      do v <- dollar_volume txns;
      volume_loop (dict_set volume ticker v) items'
  end.

Definition total_volume_by_ticker (index : list (string * list txn))
    : result (list (string * num)) :=
  do volume <- volume_loop [] index;
  Ok (dict_of (py_sorted num_ltb snd true volume)).

Definition net_of (txns : list txn) : Z :=
  fold_left
    (fun net t => if bool_decide (action t = "BUY") then net + quantity t else net - quantity t)
    txns 0.

Definition net_position_by_ticker (index : list (string * list txn)) : list (string * Z) :=
  let positions :=
    fold_left (fun positions kv => dict_set positions (fst kv) (net_of (snd kv))) index [] in
  dict_of (py_sorted Z.ltb (fun x => Z.abs (snd x)) true positions).

(** [counts[k] += 1] on a [defaultdict(int)] *)
Definition count_incr {K} `{EqDecision K} (counts : list (K * Z)) (k : K) : list (K * Z) :=
  dict_set counts k (default 0 (dict_get counts k) + 1).

Definition most_active_traders (transactions : list txn) (top_n : nat) : list (string * Z) :=
  let counts := fold_left (fun counts t => count_incr counts (trader_id t)) transactions [] in
  take top_n (py_sorted Z.ltb snd true counts).

Record tstate := mkt {
  monthly : list (string * Z);
  hourly : list (Z * Z);
  daily_vol : list (string * float)
}.

Definition time_step (s : tstate) (t : txn) : result tstate :=
  let month := strftime_Ym (timestamp t) in
  let hour := hour (timestamp t) in
  let day := strftime_Ymd (timestamp t) in
  do x <- mul_int_float (quantity t) (price t);
  Ok (mkt (count_incr (monthly s) month)
          (count_incr (hourly s) hour)
          (dict_set (daily_vol s) day
             (float_add (default float_zero (dict_get (daily_vol s) day)) x))).

Fixpoint time_loop (s : tstate) (transactions : list txn) : result tstate :=
  match transactions with
  | [] => Ok s
  | t :: rest => do s' <- time_step s t; time_loop s' rest
  end.

Record time_analysis := mkta {
  ta_monthly : list (string * Z);
  ta_hourly : list (Z * Z);
  peak_day : string;
  peak_day_volume : num;
  peak_hour : value;
  trading_days : Z
}.

(** [max(d, key=d.get) if d else "N/A"] *)
Definition peak_day_of (daily_vol : list (string * float)) : string :=
  match keys daily_vol with
  | [] => "N/A"
  | k :: ks =>
      py_max float_ltb (fun k => default float_zero (dict_get daily_vol k)) k ks
  end.

Definition peak_hour_of (hourly : list (Z * Z)) : value :=
  match keys hourly with
  | [] => VStr "N/A"
  | k :: ks => VInt (py_max Z.ltb (fun k => default 0 (dict_get hourly k)) k ks)
  end.

Definition time_based_analysis (transactions : list txn) : result time_analysis :=
  do s <- time_loop (mkt [] [] []) transactions;
  let peak_day := peak_day_of (daily_vol s) in
  Ok (mkta (dict_of (py_sorted str_ltb fst false (monthly s)))
           (dict_of (py_sorted Z.ltb fst false (hourly s)))
           peak_day
           (match dict_get (daily_vol s) peak_day with
            | Some v => NFloat v
            | None => NInt 0
            end)
           (peak_hour_of (hourly s))
           (Z.of_nat (length (daily_vol s)))).

Record summary := mks {
  total_transactions : Z;
  total_buys : Z;
  total_sells : Z;
  total_dollar_volume : num;
  unique_tickers : list string;
  unique_traders_count : Z;
  volume_by_ticker : list (string * num);
  net_position : list (string * Z);
  most_active : list (string * Z);
  time_analysis_of : time_analysis
}.

Definition get_summary (transactions : list txn) (index : list (string * list txn))
    : result summary :=
  let total := Z.of_nat (length transactions) in
  let buys := Z.of_nat (length (filter (fun t => action t = "BUY") transactions)) in
  let sells := total - buys in
  do dollar_vol <- dollar_volume transactions;
  let tickers := py_sorted str_ltb id false (keys index) in
  let traders : gset string := list_to_set (map trader_id transactions) in
  do volume <- total_volume_by_ticker index;
  do ta <- time_based_analysis transactions;
  Ok (mks total buys sells (py_round2 dollar_vol) tickers (Z.of_nat (size traders))
          volume (net_position_by_ticker index)
          (most_active_traders transactions 10) ta).

End Analytics.

(** ** Counting *)

Section Counting.
Context {A K : Type} `{EqDecision K} (f : A -> K).

(** The loop [for t in l: counts[f(t)] += 1]. *)
Definition count_by (l : list A) (counts : list (K * Z)) : list (K * Z) :=
  fold_left (fun counts t => count_incr counts (f t)) l counts.

Definition occurrences (l : list A) (k : K) : Z :=
  Z.of_nat (length (filter (fun t => f t = k) l)).

End Counting.

(** ** The time range, the cleaning report and the dashboard's loader *)

Section More.
Context `{PyLib}.

(** [a <= b] on [datetime]. *)
Definition dt_leb (a b : datetime) : bool := negb (dt_ltb b a).

(** [[t for t in transactions if start <= t["timestamp"] <= end]] *)
Definition get_by_time_range (transactions : list txn) (start end_ : datetime) : list txn :=
  filter (fun t => dt_leb start (timestamp t) && dt_leb (timestamp t) end_ = true)
    transactions.

(** [str(n)] of an [int], as an f-string renders it. *)
Definition py_str_int (z : Z) : string := NilZero.string_of_int (Z.to_int z).

Definition newline : string := String (ascii_of_nat 10) EmptyString.

(** [f"  {key}: {count} removed"] *)
Definition removed_line (kv : string * Z) : string :=
  "  " +:+ fst kv +:+ ": " +:+ py_str_int (snd kv) +:+ " removed".

Definition format_cleaning_log (log : list (string * Z)) (total_raw total_clean : Z)
    : string :=
  let lines :=
    [ "Raw rows: " +:+ py_str_int total_raw;
      "Clean rows: " +:+ py_str_int total_clean;
      EmptyString ] in
  let lines :=
    fold_left
      (fun lines kv => if 0 <? snd kv then lines ++ [removed_line kv] else lines)
      log lines in
  let lines :=
    lines ++ [newline +:+ "Total removed: " +:+ py_str_int (total_raw - total_clean)] in
  String.concat newline lines.

(** [load_data] of [dashboard.py], from the rows that [load_csv] returns. *)
Definition load_data (raw : list row)
    : result (list txn * list (string * list txn) * summary * string) :=
  do cleaned <- clean_data raw;
  let transactions := fst cleaned in
  let log := snd cleaned in
  let index := build_ticker_index transactions in
  do analytics <- get_summary transactions index;
  let cleaning_text :=
    format_cleaning_log log (Z.of_nat (length raw)) (Z.of_nat (length transactions)) in
  Ok (transactions, index, analytics, cleaning_text).

(** The sum of the quantities of a sequence of transactions. *)
Definition qty_sum (l : list txn) : Z :=
  foldr (fun t acc => quantity t + acc) 0 l.

(** The body of the loop of [build_ticker_index]. *)
Definition index_step (index : list (string * list txn)) (t : txn)
    : list (string * list txn) :=
  dict_set index (ticker t) (default [] (dict_get index (ticker t)) ++ [t]).

(** What [clean_data] lets through: the action is BUY or SELL, the
    quantity is positive, the price is not [<= 0], the ticker is not
    empty and is its own uppercase. *)
Definition valid_txn (t : txn) : Prop :=
  (action t = "BUY" \/ action t = "SELL") /\
  0 < quantity t /\
  float_le0 (price t) = false /\
  ticker t <> EmptyString /\
  upper (ticker t) = ticker t.

(** The sum of the counters of a cleaning log. *)
Definition sum_counts {K} (log : list (K * Z)) : Z :=
  foldr (fun kv acc => snd kv + acc) 0 log.

Definition month_of (t : txn) : string := strftime_Ym (timestamp t).

Definition day_of (t : txn) : string := strftime_Ymd (timestamp t).

(** [d] is the histogram of the keys [f t] over the transactions: in
    strictly ascending order of key, one entry for each key that occurs,
    holding the number of its transactions; the counts add up to the
    number of transactions. *)
Definition histogram {K} `{EqDecision K} (lt : K -> K -> bool) (f : txn -> K)
    (transactions : list txn) (d : list (K * Z)) : Prop :=
  StronglySorted (fun a b => lt (fst a) (fst b) = true) d /\
  (forall k c, (k, c) ∈ d <-> c = occurrences f transactions k /\ 0 < c) /\
  sum_counts d = Z.of_nat (length transactions).

(** The only exception that a computation can raise is [OverflowError]. *)
Definition only_overflow {A} (m : result A) : Prop :=
  forall e, m = Raise e -> e = OverflowError.

(** The quantity of the transaction converts to a float. *)
Definition fits (t : txn) : Prop := is_Some (float_of_int (quantity t)).

Definition counters_nonneg (s : vstate) : Prop :=
  0 <= missing_ts s /\ 0 <= missing_ticker s /\ 0 <= missing_price s /\
  0 <= missing_action s /\ 0 <= bad_action s /\ 0 <= bad_price s /\
  0 <= bad_qty s /\ 0 <= parse_err s.

Definition rejected_total (s : vstate) : Z :=
  missing_ts s + missing_ticker s + missing_price s + missing_action s
  + bad_action s + bad_price s + bad_qty s + parse_err s.

End More.

(** ** The specification's reading of the pipeline

    These definitions follow the words of the specification, not the
    code; the theorems below compare the two. *)

Section Spec.
Context `{PyLib}.

Inductive reason :=
  | Missing_timestamp
  | Missing_ticker
  | Missing_price
  | Missing_action
  | Parse_errors
  | Invalid_action
  | Negative_zero_price
  | Zero_negative_qty.

Global Instance reason_eq_dec : EqDecision reason.
Proof. solve_decision. Defined.

Inductive outcome :=
  | Accepted (t : txn)
  | Rejected (why : reason).

(** The counter of the cleaning log that a reason names. *)
Definition counter (why : reason) (s : vstate) : Z :=
  match why with
  | Missing_timestamp => missing_ts s
  | Missing_ticker => missing_ticker s
  | Missing_price => missing_price s
  | Missing_action => missing_action s
  | Parse_errors => parse_err s
  | Invalid_action => bad_action s
  | Negative_zero_price => bad_price s
  | Zero_negative_qty => bad_qty s
  end.

(** "field missing or blank after trim" *)
Definition spec_missing (r : list (string * string)) (k : string) : bool :=
  match dict_get r k with
  | None => true
  | Some s => bool_decide (strip s = EmptyString)
  end.

(** "first failing check wins" *)
Fixpoint first_failing (checks : list (reason * bool)) : option reason :=
  match checks with
  | [] => None
  | (why, fails) :: rest => if fails then Some why else first_failing rest
  end.

(** Check 5: "attempt to parse". *)
Definition spec_parse (r : list (string * string)) : option txn :=
  tk ← dict_get r "ticker";
  ac ← dict_get r "action";
  p ← dict_get r "price" ≫= float_of_str;
  q ← dict_get r "quantity" ≫= int_of_str;
  ts ← dict_get r "timestamp" ≫= (fun s => strptime (strip s));
  let trader :=
    match dict_get r "trader_id" with
    | Some s => strip s
    | None => "UNKNOWN"
    end in
  Some (mktxn ts (upper (strip tk)) (upper (strip ac)) q p trader).

(** Checks 1 to 8 in the order of the specification. *)
Definition spec_validate (r : list (string * string)) : outcome :=
  match first_failing
          [ (Missing_timestamp, spec_missing r "timestamp");
            (Missing_ticker, spec_missing r "ticker");
            (Missing_price, spec_missing r "price");
            (Missing_action, spec_missing r "action") ] with
  | Some why => Rejected why
  | None =>
      match spec_parse r with
      | None => Rejected Parse_errors
      | Some t =>
          match first_failing
                  [ (Invalid_action,
                     negb (bool_decide (action t = "BUY" \/ action t = "SELL")));
                    (Negative_zero_price, float_le0 (price t));
                    (Zero_negative_qty, quantity t <=? 0) ] with
          | Some why => Rejected why
          | None => Accepted t
          end
      end
  end.

Definition spec_accepted (r : list (string * string)) : option txn :=
  match spec_validate r with
  | Accepted t => Some t
  | Rejected _ => None
  end.

(** The uppercase of a code point below 256, as Unicode has it, as a
    sequence of code points. *)
Definition upper_code (n : Z) : list Z :=
  if ((97 <=? n) && (n <=? 122)) || ((224 <=? n) && (n <=? 254) && negb (n =? 247))
  then [n - 32]
  else if n =? 223 then [83; 83]
  else if n =? 181 then [924]
  else if n =? 255 then [376]
  else [n].

(** The uppercase of the string stays below 256: it holds neither
    U+00B5 nor U+00FF. *)
Definition upper_in_range (s : string) : Prop :=
  Forall (fun n => n <> 181 /\ n <> 255) (codes s).

(** The mapping of a record, whatever the order of its fields. *)
Definition same_mapping (a b : list (string * string)) : bool :=
  forallb (fun k => bool_decide (dict_get a k = dict_get b k)) (keys a ++ keys b).

(** "A record is a duplicate if its mapping matches a previously seen
    record's": the records kept, and the number dropped. *)
Fixpoint spec_dedupe (earlier rs : list (list (string * string)))
    : list (list (string * string)) * Z :=
  match rs with
  | [] => ([], 0)
  | r :: rs' =>
      let '(kept, n) := spec_dedupe (earlier ++ [r]) rs' in
      if existsb (fun e => same_mapping e r) earlier then (kept, n + 1)
      else (r :: kept, n)
  end.

(** What the loop body does with the state for a given outcome. *)
Definition record_outcome (st : vstate) (o : outcome) : vstate :=
  match o with
  | Accepted t => append_clean st t
  | Rejected Missing_timestamp => incr_missing_ts st
  | Rejected Missing_ticker => incr_missing_ticker st
  | Rejected Missing_price => incr_missing_price st
  | Rejected Missing_action => incr_missing_action st
  | Rejected Parse_errors => incr_parse_err st
  | Rejected Invalid_action => incr_bad_action st
  | Rejected Negative_zero_price => incr_bad_price st
  | Rejected Zero_negative_qty => incr_bad_qty st
  end.

Definition zero_log : list (string * Z) := cleaning_log (mkd [] [] 0) vinit.

(** The sentence of the specification on idempotence, as it stands. *)
Definition rerun_is_clean : Prop :=
  forall rs txns log,
    clean_data (map csv_row rs) = Ok (txns, log) ->
    exists log', clean_data (map txn_dict txns) = Ok (txns, log') /\
                 Forall (fun kv => snd kv = 0) log'.



Definition hour_of (t : txn) : Z := hour (timestamp t).

(** The sentence of the specification on ties for the peak hour, as it
    stands: among the hours with the highest count, the smallest. *)
Definition peak_hour_is_smallest : Prop :=
  forall rs txns log ta,
    clean_data (map csv_row rs) = Ok (txns, log) ->
    txns <> [] ->
    time_based_analysis txns = Ok ta ->
    exists h, peak_hour ta = VInt h /\
      (forall h', occurrences hour_of txns h' <= occurrences hour_of txns h) /\
      (forall h', occurrences hour_of txns h' = occurrences hour_of txns h -> h <= h').

End Spec.

(** ** A reference runtime

    An implementation of [PyLib] on which the examples are evaluated:
    floats are exact rationals, [float] and [int] read plain decimal
    literals, [strptime] reads the zero-padded form. On the inputs of the
    examples below it agrees with CPython. *)

Module Reference.

Definition digit_of (c : ascii) : option Z :=
  let n := code c in
  if (48 <=? n) && (n <=? 57) then Some (n - 48) else None.

Fixpoint digits_val (acc : Z) (s : string) : option Z :=
  match s with
  | EmptyString => Some acc
  | String c s' =>
      match digit_of c with
      | Some d => digits_val (10 * acc + d) s'
      | None => None
      end
  end.

Definition unsigned (s : string) : option Z :=
  match s with
  | EmptyString => None
  | _ => digits_val 0 s
  end.

Fixpoint split_dot (s : string) : string * option string :=
  match s with
  | EmptyString => (EmptyString, None)
  | String c s' =>
      if bool_decide (c = "."%char) then (EmptyString, Some s')
      else let '(a, b) := split_dot s' in (String c a, b)
  end.

Definition unsigned_decimal (s : string) : option Q :=
  match split_dot s with
  | (ip, None) => inject_Z <$> unsigned ip
  | (ip, Some fp) =>
      match digits_val 0 ip, digits_val 0 fp with
      | Some i, Some f =>
          if str_not ip && str_not fp then None
          else Some (Qred (Qplus (inject_Z i)
                 (Qmake f (Z.to_pos (10 ^ Z.of_nat (String.length fp))))))
      | _, _ => None
      end
  end.

Definition signed {X} (neg : X -> X) (parse : string -> option X) (s : string) : option X :=
  match s with
  | String "-" s' => neg <$> parse s'
  | String "+" s' => parse s'
  | _ => parse s
  end.

Definition ref_int_of_str (s : string) : option Z :=
  signed Z.opp unsigned (strip s).

Definition ref_float_of_str (s : string) : option Q :=
  signed Qopp unsigned_decimal (strip s).

Definition field (s : string) (i n : nat) : option Z :=
  let f := substring i n s in
  if bool_decide (String.length f = n) then digits_val 0 f else None.

Definition days_in_month (y m : Z) : Z :=
  if bool_decide (m = 2) then
    if ((y mod 4 =? 0) && negb (y mod 100 =? 0)) || (y mod 400 =? 0) then 29 else 28
  else if bool_decide (m ∈ [4; 6; 9; 11]) then 30 else 31.

Definition ref_strptime (s : string) : option datetime :=
  if negb (bool_decide (String.length s = 19%nat)) then None else
  if negb (bool_decide (substring 4 1 s = "-" /\ substring 7 1 s = "-" /\
                        substring 10 1 s = " " /\ substring 13 1 s = ":" /\
                        substring 16 1 s = ":")) then None else
  match field s 0 4, field s 5 2, field s 8 2, field s 11 2, field s 14 2, field s 17 2 with
  | Some y, Some mo, Some d, Some h, Some mi, Some sec =>
      if (1 <=? y) && (1 <=? mo) && (mo <=? 12) && (1 <=? d) && (d <=? days_in_month y mo)
         && (h <=? 23) && (mi <=? 59) && (sec <=? 59)
      then Some (mkdt y mo d h mi sec) else None
  | _, _, _, _, _, _ => None
  end.

Definition ref_round2 (x : Q) : Q :=
  let n := Qnum x * 100 in
  let d := Zpos (Qden x) in
  let fl := n / d in
  let r := 2 * (n mod d) in
  let k := if r <? d then fl else if d <? r then fl + 1
           else if Z.even fl then fl else fl + 1 in
  Qred (Qmake k 100).

Definition Qltb (x y : Q) : bool := negb (Qle_bool y x).

Lemma ref_int_of_str_blank s : strip s = EmptyString -> ref_int_of_str s = None.
Proof. unfold ref_int_of_str. by intros ->. Qed.

Global Instance lib : PyLib := {|
  float := Q;
  float_of_str := ref_float_of_str;
  float_of_int := fun z => if Z.abs z <? 2 ^ 1024 then Some (inject_Z z) else None;
  int_of_float := fun x => Ok (Z.quot (Qnum x) (Zpos (Qden x)));
  float_mul := fun x y => Qred (Qmult x y);
  float_add := fun x y => Qred (Qplus x y);
  float_zero := inject_Z 0;
  float_sum := fun xs => fold_left (fun a x => Qred (Qplus a x)) xs (inject_Z 0);
  float_round2 := ref_round2;
  float_ltb := Qltb;
  float_eqb := Qeq_bool;
  float_le0 := fun x => Qle_bool x (inject_Z 0);
  float_eq_int := fun x n => Qeq_bool x (inject_Z n);
  float_lt_int := fun x n => Qltb x (inject_Z n);
  int_lt_float := fun n x => Qltb (inject_Z n) x;
  int_of_str := ref_int_of_str;
  strptime := ref_strptime;
  int_of_str_blank := ref_int_of_str_blank
|}.

End Reference.

(** ** Sample data *)

Module Samples.
Import Reference.

(** Two orders: a buy at 15:00 on the first day with a blank trader, and
    a sell at 09:00 on the next day without a trader field. *)
Definition row_a : list (string * string) :=
  [ ("timestamp", "2024-01-01 15:00:00"); ("ticker", " aapl"); ("action", "buy");
    ("quantity", "10"); ("price", "100.50"); ("trader_id", "  ") ].

Definition row_b : list (string * string) :=
  [ ("ticker", "MSFT"); ("timestamp", "2024-01-02 09:00:00"); ("action", "SELL");
    ("quantity", "5"); ("price", "1.25") ].

(** [row_a] with its fields in another order, and with no quantity. *)
Definition row_a' : list (string * string) :=
  [ ("trader_id", "  "); ("price", "100.50"); ("quantity", "10"); ("action", "buy");
    ("ticker", " aapl"); ("timestamp", "2024-01-01 15:00:00") ].

Definition row_c : list (string * string) :=
  [ ("timestamp", "2024-01-01 15:00:00"); ("ticker", " aapl"); ("action", "buy");
    ("quantity", " "); ("price", "100.50") ].

(** No timestamp and no quantity. *)
Definition row_d : list (string * string) :=
  [ ("timestamp", " "); ("ticker", "AAPL"); ("action", "BUY");
    ("quantity", ""); ("price", "1.00") ].

Definition txn_a : txn :=
  mktxn (mkdt 2024 1 1 15 0 0) "AAPL" "BUY" 10 (Qmake 201 2) "".

Definition txn_b : txn :=
  mktxn (mkdt 2024 1 2 9 0 0) "MSFT" "SELL" 5 (Qmake 5 4) "UNKNOWN".

Definition log_ab : list (string * Z) :=
  [ ("duplicates", 1); ("missing_timestamp", 0); ("missing_ticker", 0);
    ("missing_price", 0); ("missing_action", 0); ("invalid_action", 0);
    ("negative_zero_price", 0); ("zero_negative_qty", 0); ("parse_errors", 1) ].

Definition ta_ab : time_analysis :=
  mkta [("2024-01", 2)] [(9, 1); (15, 1)] "2024-01-01" (NFloat (Qmake 1005 1)) (VInt 15) 2.

Definition index_ab : list (string * list txn) :=
  [("AAPL", [txn_a]); ("MSFT", [txn_b])].

Definition summary_ab : summary :=
  mks 2 1 1 (NFloat (Qmake 4045 4)) ["AAPL"; "MSFT"] 2
    [("AAPL", NFloat (Qmake 1005 1)); ("MSFT", NFloat (Qmake 25 4))]
    [("AAPL", 10); ("MSFT", -5)] [("", 1); ("UNKNOWN", 1)] ta_ab.

Definition report_ab : string :=
  String.concat newline
    [ "Raw rows: 4"; "Clean rows: 2"; "";
      "  duplicates: 1 removed"; "  parse_errors: 1 removed";
      newline +:+ "Total removed: 2" ].

Definition num_val (x : num) : Q :=
  match x with
  | NInt z => inject_Z z
  | NFloat f => f
  end.

End Samples.

(** * Properties of the embedding *)

(** ** Orders *)

Lemma lt_irrefl {K} (lt : K -> K -> bool) `{!StrictWeak lt} a : lt a a = false.
Proof. destruct (lt a a) eqn:E; [|done]. by rewrite (lt_asym _ _ E) in E. Qed.

Global Instance StrictTotal_weak {K} (lt : K -> K -> bool) `{!StrictTotal lt} :
  StrictWeak lt.
Proof.
  split; [apply st_asym|].
  intros a b c Hab Hbc. destruct (lt c a) eqn:Hca; [|done].
  destruct (lt a b) eqn:E.
  - by rewrite (st_trans _ _ _ Hca E) in Hbc.
  - rewrite (st_total a b E Hab) in Hca. by rewrite Hca in Hbc.
Qed.

Lemma lex_ltb_asym a b : lex_ltb a b = true -> lex_ltb b a = false.
Proof.
  revert b. induction a as [|x a IH]; intros [|y b]; simpl; try done.
  intros Hlt. destruct (Z.ltb_spec x y), (Z.ltb_spec y x), (Z.eqb_spec x y),
    (Z.eqb_spec y x); simpl in *; try lia; auto.
Qed.

Lemma lex_ltb_trans a b c :
  lex_ltb a b = true -> lex_ltb b c = true -> lex_ltb a c = true.
Proof.
  revert b c. induction a as [|x a IH]; intros [|y b] [|z c]; simpl; try done.
  intros Hab Hbc.
  destruct (Z.ltb_spec x y), (Z.ltb_spec y z), (Z.ltb_spec x z),
    (Z.eqb_spec x y), (Z.eqb_spec y z), (Z.eqb_spec x z);
    simpl in *; try lia; try done; eauto.
Qed.

Lemma lex_ltb_total a b : lex_ltb a b = false -> lex_ltb b a = false -> a = b.
Proof.
  revert b. induction a as [|x a IH]; intros [|y b]; simpl; try done.
  intros Hab Hba.
  destruct (Z.ltb_spec x y), (Z.ltb_spec y x), (Z.eqb_spec x y),
    (Z.eqb_spec y x); simpl in *; try lia; try done.
  f_equal; auto.
Qed.

Lemma code_inj c d : code c = code d -> c = d.
Proof.
  unfold code. intros E. apply N2Z.inj in E.
  rewrite <- (ascii_N_embedding c), <- (ascii_N_embedding d). by rewrite E.
Qed.

Lemma codes_inj s t : codes s = codes t -> s = t.
Proof.
  revert t. induction s as [|c s IH]; intros [|d t]; simpl; try done.
  intros E. injection E as E1 E2. f_equal; [by apply code_inj | by apply IH].
Qed.

Global Instance str_ltb_total : StrictTotal str_ltb.
Proof.
  unfold str_ltb. split.
  - intros a b. apply lex_ltb_asym.
  - intros a b c. apply lex_ltb_trans.
  - intros a b Hab Hba. apply codes_inj. by apply lex_ltb_total.
Qed.

Global Instance dt_ltb_total : StrictTotal dt_ltb.
Proof.
  unfold dt_ltb. split.
  - intros a b. apply lex_ltb_asym.
  - intros a b c. apply lex_ltb_trans.
  - intros [] [] Hab Hba. pose proof (lex_ltb_total _ _ Hab Hba) as E.
    unfold dt_fields in E. simpl in E. by injection E as -> -> -> -> -> ->.
Qed.

Global Instance Z_ltb_total : StrictTotal Z.ltb.
Proof. split; intros *; rewrite ?Z.ltb_lt, ?Z.ltb_ge; lia. Qed.

(** ** The stable sort *)

Section SortFacts.
Context {A K : Type} (lt : K -> K -> bool) (key : A -> K).

Lemma insert_by_perm x l : insert_by lt key x l ≡ₚ x :: l.
Proof.
  induction l as [|y l IH]; simpl; [done|].
  destruct (lt (key y) (key x)); [|done].
  rewrite IH. apply Permutation_swap.
Qed.

Lemma sort_by_perm l : sort_by lt key l ≡ₚ l.
Proof.
  induction l as [|x l IH]; simpl; [done|].
  unfold sort_by in *. simpl. rewrite insert_by_perm. by rewrite IH.
Qed.

(** Inserting keeps every class of elements in its order, for a class
    [P] that holds no element strictly below another of its members. *)
Lemma insert_by_filter (P : A -> Prop) `{forall x, Decision (P x)} x l :
  (forall y, y ∈ l -> lt (key y) (key x) = true -> P x -> ~ P y) ->
  filter P (insert_by lt key x l) = filter P (x :: l).
Proof.
  intros HP. induction l as [|y l IH]; simpl; [done|].
  destruct (lt (key y) (key x)) eqn:E; [|done].
  rewrite filter_cons, IH, !filter_cons.
  - destruct (decide (P y)) as [Hy|Hy], (decide (P x)) as [Hx|Hx]; try done.
    destruct (HP y (list_elem_of_here _ _) E Hx Hy).
  - intros z Hz. apply HP. by apply list_elem_of_further.
Qed.

Lemma sort_by_filter (P : A -> Prop) `{forall x, Decision (P x)} l :
  (forall x y, x ∈ l -> y ∈ l -> lt (key y) (key x) = true -> P x -> ~ P y) ->
  filter P (sort_by lt key l) = filter P l.
Proof.
  induction l as [|x l IH]; intros HP; [done|].
  unfold sort_by in *. simpl. rewrite insert_by_filter.
  - rewrite !filter_cons, IH; [done|].
    intros a b Ha Hb. apply HP; by apply list_elem_of_further.
  - intros y Hy. apply HP; [apply list_elem_of_here|].
    apply list_elem_of_further. by rewrite <- (sort_by_perm l).
Qed.

Section On.
Context (Q : K -> Prop) (Hsorts : sorts_on lt Q).

Lemma insert_by_sorted_on x l :
  Q (key x) -> Forall (fun y => Q (key y)) l ->
  StronglySorted (key_le lt key) l -> StronglySorted (key_le lt key) (insert_by lt key x l).
Proof.
  destruct Hsorts as [Hasym Hnegtrans].
  intros Hx. induction l as [|y l IH]; simpl; intros HQ Hs.
  - repeat constructor.
  - apply Forall_cons in HQ as [Hy HQ].
    apply StronglySorted_inv in Hs as [Hl Hyl].
    destruct (lt (key y) (key x)) eqn:E.
    + constructor; [by apply IH|].
      rewrite insert_by_perm. constructor; [|done].
      unfold key_le. by apply Hasym.
    + constructor; [by constructor|].
      constructor; [done|].
      rewrite Forall_forall in Hyl, HQ. apply Forall_forall. intros z Hz.
      unfold key_le in *. apply (Hnegtrans (key x) (key y) (key z)); auto.
Qed.

Lemma sort_by_sorted_on l :
  Forall (fun y => Q (key y)) l -> StronglySorted (key_le lt key) (sort_by lt key l).
Proof.
  induction l as [|x l IH]; intros HQ; [constructor|].
  apply Forall_cons in HQ as [Hx HQ].
  unfold sort_by in *. simpl. apply insert_by_sorted_on; [done| |by apply IH].
  by rewrite (sort_by_perm l).
Qed.


End On.

Context `{!StrictWeak lt}.

Lemma StrictWeak_sorts_on (Q : K -> Prop) : sorts_on lt Q.
Proof.
  split.
  - intros a b _ _. apply lt_asym.
  - intros a b c _ _ _. apply lt_negtrans.
Qed.

Lemma sort_by_sorted l : StronglySorted (key_le lt key) (sort_by lt key l).
Proof.
  apply (sort_by_sorted_on (fun _ => True)); [apply StrictWeak_sorts_on|].
  by apply Forall_forall.
Qed.

Lemma sort_by_stable_eq `{EqDecision K} k l :
  filter (fun x => key x = k) (sort_by lt key l) = filter (fun x => key x = k) l.
Proof.
  apply sort_by_filter. intros x y _ _ Hyx Hx Hy. rewrite Hx, Hy in Hyx.
  by rewrite (lt_irrefl lt) in Hyx.
Qed.

End SortFacts.


(** ** Dicts *)

Section DictFacts.
Context {K V : Type} `{EqDecision K}.
Implicit Types (d : list (K * V)) (k : K) (v : V).

Lemma dict_get_set_eq d k v : dict_get (dict_set d k v) k = Some v.
Proof.
  induction d as [|[k' v'] d IH]; simpl.
  - by rewrite decide_True.
  - destruct (decide (k' = k)) as [->|Hne]; simpl.
    + by rewrite decide_True.
    + by rewrite decide_False.
Qed.

Lemma dict_get_set_ne d k k' v : k <> k' -> dict_get (dict_set d k v) k' = dict_get d k'.
Proof.
  intros Hne. induction d as [|[k0 v0] d IH]; simpl.
  - by rewrite decide_False.
  - destruct (decide (k0 = k)) as [->|Hne0]; simpl.
    + by rewrite !decide_False.
    + destruct (decide (k0 = k')); [done|apply IH].
Qed.

Lemma dict_get_None d k : dict_get d k = None <-> k ∉ keys d.
Proof.
  induction d as [|[k' v'] d IH]; simpl.
  - split; [intros _; apply not_elem_of_nil|done].
  - rewrite not_elem_of_cons. destruct (decide (k' = k)) as [->|Hne].
    + split; [done|]. by intros [? _].
    + rewrite IH. split; [by intros ?; split|by intros [_ ?]].
Qed.

Lemma dict_get_Some_elem d k v : dict_get d k = Some v -> (k, v) ∈ d.
Proof.
  induction d as [|[k' v'] d IH]; simpl; [done|].
  destruct (decide (k' = k)) as [->|Hne].
  - intros [= ->]. apply list_elem_of_here.
  - intros Hd. apply list_elem_of_further. by apply IH.
Qed.

Lemma dict_get_elem d k v : NoDup (keys d) -> (k, v) ∈ d -> dict_get d k = Some v.
Proof.
  induction d as [|[k' v'] d IH]; simpl; intros Hnd Hin.
  - by apply elem_of_nil in Hin.
  - apply NoDup_cons in Hnd as [Hk Hnd].
    apply elem_of_cons in Hin as [[= -> ->]|Hin].
    + by rewrite decide_True.
    + rewrite decide_False; [by apply IH|].
      intros ->. apply Hk. apply (list_elem_of_fmap_2 fst) in Hin. exact Hin.
Qed.

Lemma dict_set_fresh d k v : k ∉ keys d -> dict_set d k v = d ++ [(k, v)].
Proof.
  induction d as [|[k' v'] d IH]; simpl; [done|].
  rewrite not_elem_of_cons. intros [Hne Hk].
  rewrite decide_False by done. by rewrite IH.
Qed.

Lemma keys_dict_set d k v :
  keys (dict_set d k v) = keys d ++ (if decide (k ∈ keys d) then [] else [k]).
Proof.
  induction d as [|[k' v'] d IH]; simpl; [done|].
  destruct (decide (k' = k)) as [->|Hne]; simpl.
    + rewrite decide_True; [by rewrite app_nil_r|apply list_elem_of_here].
    + rewrite IH. f_equal.
      destruct (decide (k ∈ keys d)) as [Hin|Hout].
      * rewrite decide_True; [done|by apply list_elem_of_further].
      * rewrite decide_False; [done|]. rewrite not_elem_of_cons. by split.
Qed.

Lemma dict_set_nodup d k v : NoDup (keys d) -> NoDup (keys (dict_set d k v)).
Proof.
  intros Hnd. rewrite keys_dict_set.
  destruct (decide (k ∈ keys d)) as [Hin|Hout]; [by rewrite app_nil_r|].
  apply NoDup_app. split; [done|]. split; [|apply NoDup_singleton].
  intros x Hx Hk. apply list_elem_of_singleton in Hk. by subst x.
Qed.

Lemma dict_of_acc (l d : list (K * V)) :
  NoDup (keys (d ++ l)) ->
  fold_left (fun d kv => dict_set d (fst kv) (snd kv)) l d = d ++ l.
Proof.
  revert d. induction l as [|[k v] l IH]; intros d Hnd; simpl.
  - by rewrite app_nil_r.
  - assert (k ∉ keys d) as Hk.
    { unfold keys in *. rewrite fmap_app in Hnd. simpl in Hnd.
      apply NoDup_app in Hnd as (_ & Hdis & _).
      intros Hin. apply (Hdis k Hin). apply list_elem_of_here. }
    rewrite dict_set_fresh by done.
    rewrite IH; rewrite <- app_assoc; done.
Qed.

(** [dict(pairs)] of pairs with distinct keys holds the pairs in order. *)
Lemma dict_of_nodup (l : list (K * V)) : NoDup (keys l) -> dict_of l = l.
Proof. intros Hnd. unfold dict_of. by rewrite dict_of_acc. Qed.

End DictFacts.

(** ** Validation *)

Section ValidationFacts.
Context `{PyLib}.

Lemma dict_get_csv r k : dict_get (csv_row r) k = VStr <$> dict_get r k.
Proof.
  induction r as [|[k' s] r IH]; simpl; [done|].
  by destruct (decide (k' = k)).
Qed.

Lemma str_not_spec s : str_not s = bool_decide (s = EmptyString).
Proof. by destruct s. Qed.

Lemma blank_csv r k : blank (csv_row r) k = Ok (spec_missing r k).
Proof.
  unfold blank, get_or, spec_missing. rewrite dict_get_csv.
  destruct (dict_get r k); simpl; by rewrite ?str_not_spec.
Qed.

Lemma validate_step_spec st r :
  validate_step st (csv_row r) = Ok (record_outcome st (spec_validate r)).
Proof.
  unfold validate_step, spec_validate. rewrite !blank_csv. simpl.
  destruct (spec_missing r "timestamp"); [done|].
  destruct (spec_missing r "ticker"); [done|].
  destruct (spec_missing r "price"); [done|].
  destruct (spec_missing r "action"); [done|].
  unfold try_body, spec_parse, getitem, get_or. rewrite !dict_get_csv.
  destruct (dict_get r "ticker") as [tk|]; simpl; [|done].
  destruct (dict_get r "action") as [ac|]; simpl; [|done].
  destruct (dict_get r "price") as [p|]; simpl; [|done].
  destruct (float_of_str p) as [pf|]; simpl; [|done].
  destruct (dict_get r "quantity") as [q|]; simpl; [|done].
  destruct (int_of_str q) as [qz|]; simpl; [|done].
  destruct (dict_get r "timestamp") as [ts|]; simpl; [|done].
  destruct (strptime (strip ts)) as [d|]; simpl; [|done].
  assert (forall tr, try_except
    (if negb (bool_decide (upper (strip ac) = "BUY") || bool_decide (upper (strip ac) = "SELL"))
     then Ok (incr_bad_action st)
     else if float_le0 pf then Ok (incr_bad_price st)
     else if qz <=? 0 then Ok (incr_bad_qty st)
     else Ok (append_clean st (mktxn d (upper (strip tk)) (upper (strip ac)) qz pf tr)))
    (incr_parse_err st)
    = Ok (record_outcome st
      (match (if negb (bool_decide (upper (strip ac) = "BUY" \/ upper (strip ac) = "SELL"))
              then Some Invalid_action
              else if float_le0 pf then Some Negative_zero_price
              else if qz <=? 0 then Some Zero_negative_qty else None) with
       | Some why => Rejected why
       | None => Accepted (mktxn d (upper (strip tk)) (upper (strip ac)) qz pf tr)
       end))) as Hchecks.
  { intros tr.
    destruct (decide (upper (strip ac) = "BUY")) as [E1|E1],
             (decide (upper (strip ac) = "SELL")) as [E2|E2];
      rewrite ?(bool_decide_eq_true_2 _ E1), ?(bool_decide_eq_false_2 _ E1),
              ?(bool_decide_eq_true_2 _ E2), ?(bool_decide_eq_false_2 _ E2); simpl.
    all: try (rewrite bool_decide_eq_true_2 by tauto; simpl;
              by destruct (float_le0 pf), (qz <=? 0)).
    rewrite bool_decide_eq_false_2 by tauto. done. }
  destruct (dict_get r "trader_id") as [tr|]; simpl; apply Hchecks.
Qed.

Lemma validate_loop_spec st rs :
  validate_loop st (map csv_row rs)
  = Ok (fold_left record_outcome (map spec_validate rs) st).
Proof.
  revert st. induction rs as [|r rs IH]; intros st; simpl; [done|].
  rewrite validate_step_spec. simpl. apply IH.
Qed.

Lemma clean_record_outcome st o :
  clean (record_outcome st o)
  = clean st ++ match o with Accepted t => [t] | Rejected _ => [] end.
Proof. destruct o as [t|[]]; simpl; by rewrite ?app_nil_r. Qed.

Lemma clean_fold_outcomes st rs :
  clean (fold_left record_outcome (map spec_validate rs) st)
  = clean st ++ omap spec_accepted rs.
Proof.
  revert st. induction rs as [|r rs IH]; intros st; simpl; [by rewrite app_nil_r|].
  rewrite IH, clean_record_outcome. unfold spec_accepted.
  destruct (spec_validate r); simpl; by rewrite <- ?app_assoc.
Qed.

(** C1: every record of the deduplicated sequence is judged by the
    checks of the specification in their order: the step of the
    validation loop rejects it for the first failing check, adding one to
    the counter of that check and to no other and leaving the accepted
    sequence alone, or, when no check fails, appends its transaction to
    the accepted sequence and changes no counter. *)
Theorem validation_order (st : vstate) (r : list (string * string)) :
  exists st', validate_step st (csv_row r) = Ok st' /\
    match spec_validate r with
    | Rejected why =>
        clean st' = clean st /\
        forall why', counter why' st' = counter why' st + (if decide (why' = why) then 1 else 0)
    | Accepted t =>
        clean st' = clean st ++ [t] /\
        forall why', counter why' st' = counter why' st
    end.
Proof.
  exists (record_outcome st (spec_validate r)). split; [apply validate_step_spec|].
  destruct (spec_validate r) as [t|why]; simpl.
  - split; [done|]. by intros [].
  - destruct why; (split; [done|]); intros []; simpl; lia.
Qed.

Lemma spec_missing_set_quantity r q k :
  k <> "quantity" -> spec_missing (dict_set r "quantity" q) k = spec_missing r k.
Proof. intros Hk. unfold spec_missing. by rewrite dict_get_set_ne. Qed.

(** What the four checks before the parse step say of a record. *)
Lemma first_four_not_parse r why :
  first_failing
    [ (Missing_timestamp, spec_missing r "timestamp");
      (Missing_ticker, spec_missing r "ticker");
      (Missing_price, spec_missing r "price");
      (Missing_action, spec_missing r "action") ] = Some why ->
  why <> Parse_errors.
Proof.
  simpl.
  destruct (spec_missing r "timestamp"); [by intros [= <-]|].
  destruct (spec_missing r "ticker"); [by intros [= <-]|].
  destruct (spec_missing r "price"); [by intros [= <-]|].
  destruct (spec_missing r "action"); [by intros [= <-]|done].
Qed.

(** C10: a record whose timestamp, ticker, price and action are present
    and not blank, and whose quantity is absent, blank or not an integer
    literal, is rejected by the step of the validation loop with one
    added to [parse_errors]. No check on the quantity comes before the
    parse step: a record that fails one of the four checks on timestamp,
    ticker, price and action is rejected by the step for the first of
    them that fails, never with [parse_errors], and the step does the
    same whatever is put in its quantity field. *)
Theorem bad_quantity_is_parse_error (st : vstate) (r : list (string * string)) :
  spec_missing r "timestamp" = false ->
  spec_missing r "ticker" = false ->
  spec_missing r "price" = false ->
  spec_missing r "action" = false ->
  match dict_get r "quantity" with
  | None => True
  | Some q => strip q = EmptyString \/ int_of_str q = None
  end ->
  validate_step st (csv_row r) = Ok (incr_parse_err st) /\
  forall (st' : vstate) (r' : list (string * string)) (why : reason),
    first_failing
      [ (Missing_timestamp, spec_missing r' "timestamp");
        (Missing_ticker, spec_missing r' "ticker");
        (Missing_price, spec_missing r' "price");
        (Missing_action, spec_missing r' "action") ] = Some why ->
    validate_step st' (csv_row r') = Ok (record_outcome st' (Rejected why)) /\
    why <> Parse_errors /\
    forall q', validate_step st' (csv_row (dict_set r' "quantity" q'))
               = validate_step st' (csv_row r').
Proof.
  intros Hts Htk Hp Hac Hq. split.
  - rewrite validate_step_spec. unfold spec_validate. simpl.
    rewrite Hts, Htk, Hp, Hac.
    assert (spec_parse r = None) as ->; [|done].
    unfold spec_parse.
    destruct (dict_get r "ticker"); simpl; [|done].
    destruct (dict_get r "action"); simpl; [|done].
    destruct (dict_get r "price" ≫= float_of_str); simpl; [|done].
    destruct (dict_get r "quantity") as [q|]; simpl; [|done].
    assert (int_of_str q = None) as ->; [|done].
    destruct Hq as [Hq|Hq]; [by apply int_of_str_blank|done].
  - intros st' r' why Hwhy.
    assert (spec_validate r' = Rejected why) as Hr'.
    { unfold spec_validate. by rewrite Hwhy. }
    split; [by rewrite validate_step_spec, Hr'|].
    split; [by apply (first_four_not_parse r')|].
    intros q'. rewrite !validate_step_spec, Hr'.
    unfold spec_validate.
    rewrite !spec_missing_set_quantity by discriminate. by rewrite Hwhy.
Qed.

Lemma record_outcome_accepted st o t :
  record_outcome st o = append_clean st t -> o = Accepted t.
Proof.
  intros E. apply (f_equal clean) in E. rewrite clean_record_outcome in E.
  simpl in E. apply app_inv_head in E. destruct o; by simplify_eq.
Qed.

Lemma spec_validate_accepted r t :
  spec_validate r = Accepted t -> spec_parse r = Some t.
Proof.
  unfold spec_validate. destruct (first_failing _); [done|].
  destruct (spec_parse r) as [t'|]; [|done].
  destruct (first_failing _); [done|]. by intros [= ->].
Qed.

Lemma spec_parse_trader_id r t :
  spec_parse r = Some t ->
  trader_id t = match dict_get r "trader_id" with
                | Some s => strip s
                | None => "UNKNOWN"
                end.
Proof.
  unfold spec_parse. intros E.
  destruct (dict_get r "ticker"); simpl in E; [|done].
  destruct (dict_get r "action"); simpl in E; [|done].
  destruct (dict_get r "price" ≫= float_of_str); simpl in E; [|done].
  destruct (dict_get r "quantity" ≫= int_of_str); simpl in E; [|done].
  destruct (dict_get r "timestamp" ≫= _); simpl in E; [|done].
  by injection E as <-.
Qed.

End ValidationFacts.

(** ** Phase 1: duplicates *)

Section SortUnique.
Context {A K : Type} (lt : K -> K -> bool) (key : A -> K) `{!StrictTotal lt}.

Lemma sorted_strict l :
  StronglySorted (key_le lt key) l -> NoDup (map key l) ->
  StronglySorted (fun a b => lt (key a) (key b) = true) l.
Proof.
  induction 1 as [|x l Hs IH Hx]; intros Hnd; [constructor|].
  simpl in Hnd. apply NoDup_cons in Hnd as [Hk Hnd].
  constructor; [by apply IH|].
  apply Forall_forall. intros y Hy.
  rewrite Forall_forall in Hx. specialize (Hx y Hy). unfold key_le in Hx.
  destruct (lt (key x) (key y)) eqn:E; [done|].
  destruct Hk. rewrite (st_total _ _ E Hx). by apply list_elem_of_fmap_2.
Qed.

(** Records with distinct keys sort to the same sequence, whatever
    their order. *)
Lemma sort_by_perm_eq l1 l2 :
  l1 ≡ₚ l2 -> NoDup (map key l1) -> sort_by lt key l1 = sort_by lt key l2.
Proof.
  intros Hp Hnd.
  assert (AntiSymm (=) (fun a b : A => lt (key a) (key b) = true)) as Hanti.
  { intros a b Hab Hba. rewrite (st_asym _ _ Hab) in Hba. done. }
  apply (StronglySorted_unique (fun a b => lt (key a) (key b) = true)).
  - apply sorted_strict; [apply sort_by_sorted, _|].
    by rewrite sort_by_perm.
  - apply sorted_strict; [apply sort_by_sorted, _|].
    by rewrite sort_by_perm, <- Hp.
  - by rewrite !sort_by_perm.
Qed.

End SortUnique.

Lemma sort_by_map {A B K} (lt : K -> K -> bool) (keyA : A -> K) (keyB : B -> K)
    (f : A -> B) l :
  (forall x, keyB (f x) = keyA x) ->
  sort_by lt keyB (map f l) = map f (sort_by lt keyA l).
Proof.
  intros Hk. induction l as [|x l IH]; [done|].
  unfold sort_by in *. simpl. rewrite IH. clear IH.
  induction (foldr (insert_by lt keyA) [] l) as [|y l' IH]; simpl; [done|].
  rewrite !Hk. destruct (lt (keyA y) (keyA x)); simpl; [by rewrite IH|done].
Qed.

Section DedupeFacts.
Context `{PyLib}.
Implicit Types (a b r : list (string * string)).

Lemma row_key_csv r : row_key (csv_row r) = csv_row (sort_by str_ltb fst r).
Proof. unfold row_key, py_sorted, csv_row. by apply sort_by_map. Qed.

Lemma tuple_eqb_csv a b : tuple_eqb (csv_row a) (csv_row b) = bool_decide (a = b).
Proof.
  revert b. induction a as [|[k s] a IH]; intros [|[k' s'] b]; simpl; try done.
  rewrite IH. unfold item_eqb. simpl.
  apply Bool.eq_iff_eq_true. rewrite !andb_true_iff, !bool_decide_eq_true.
  split; [by intros [[-> ->] ->]|by intros [= -> -> ->]].
Qed.

Lemma same_mapping_spec a b :
  same_mapping a b = true <-> forall k, dict_get a k = dict_get b k.
Proof.
  unfold same_mapping. rewrite forallb_forall. split.
  - intros Hall k.
    destruct (decide (k ∈ keys a ++ keys b)) as [Hin|Hout].
    + apply list_elem_of_In, Hall in Hin. by apply bool_decide_eq_true in Hin.
    + rewrite elem_of_app in Hout.
      rewrite (proj2 (dict_get_None a k)), (proj2 (dict_get_None b k)); tauto.
  - intros Hall k _. by apply bool_decide_eq_true_2.
Qed.

Lemma perm_same_mapping a b :
  NoDup (keys a) -> NoDup (keys b) ->
  a ≡ₚ b <-> forall k, dict_get a k = dict_get b k.
Proof.
  intros Ha Hb. split.
  - intros Hp k. destruct (dict_get a k) as [v|] eqn:E.
    + symmetry. apply dict_get_elem; [done|]. rewrite <- Hp.
      by apply dict_get_Some_elem.
    + symmetry. apply dict_get_None. unfold keys. rewrite <- Hp.
      by apply dict_get_None.
  - intros Hall. apply NoDup_Permutation.
    + by apply (NoDup_fmap_1 fst).
    + by apply (NoDup_fmap_1 fst).
    + intros [k v]. split; intros Hin.
      * apply dict_get_Some_elem. rewrite <- Hall. by apply dict_get_elem.
      * apply dict_get_Some_elem. rewrite Hall. by apply dict_get_elem.
Qed.

(** Two records have equal keys in [seen] exactly when they are the same
    mapping. *)
Lemma row_key_same_mapping a b :
  NoDup (keys a) -> NoDup (keys b) ->
  tuple_eqb (row_key (csv_row a)) (row_key (csv_row b)) = same_mapping b a.
Proof.
  intros Ha Hb. rewrite !row_key_csv, tuple_eqb_csv.
  apply Bool.eq_iff_eq_true. rewrite bool_decide_eq_true, same_mapping_spec.
  rewrite <- (perm_same_mapping b a) by done. split.
  - intros E. by rewrite <- (sort_by_perm str_ltb fst b), <- E, sort_by_perm.
  - intros Hp. symmetry. by apply sort_by_perm_eq; [apply _| |].
Qed.

Lemma same_mapping_trans a b c :
  same_mapping a b = true -> same_mapping b c = true -> same_mapping a c = true.
Proof.
  rewrite !same_mapping_spec. intros Hab Hbc k. by rewrite Hab.
Qed.

Lemma spec_dedupe_length earlier rs :
  Z.of_nat (length (spec_dedupe earlier rs).1) + (spec_dedupe earlier rs).2
  = Z.of_nat (length rs).
Proof.
  revert earlier. induction rs as [|r rs IH]; intros earlier; simpl; [done|].
  specialize (IH (earlier ++ [r])).
  destruct (spec_dedupe (earlier ++ [r]) rs) as [kept n].
  destruct (existsb _ earlier); simpl in *; lia.
Qed.

Lemma dedupe_loop_spec rs st earlier :
  Forall (fun r => NoDup (keys r)) rs ->
  (forall r, NoDup (keys r) ->
     set_mem (row_key (csv_row r)) (seen st) = existsb (fun e => same_mapping e r) earlier) ->
  unique (fold_left dedupe_step (map csv_row rs) st)
    = unique st ++ map csv_row (spec_dedupe earlier rs).1 /\
  dupes (fold_left dedupe_step (map csv_row rs) st)
    = dupes st + (spec_dedupe earlier rs).2.
Proof.
  revert st earlier. induction rs as [|r rs IH]; intros st earlier Hnd Hinv; simpl.
  { rewrite app_nil_r. split; [done|lia]. }
  apply Forall_cons in Hnd as [Hr Hnd].
  unfold dedupe_step at 2 4. rewrite (Hinv r Hr).
  destruct (spec_dedupe (earlier ++ [r]) rs) as [kept n] eqn:Espec.
  destruct (existsb (fun e => same_mapping e r) earlier) eqn:Edup.
  - destruct (IH (mkd (seen st) (unique st) (dupes st + 1)) (earlier ++ [r]) Hnd)
      as [IH1 IH2].
    { intros r0 Hr0. simpl. rewrite (Hinv r0 Hr0), existsb_app. simpl.
      destruct (same_mapping r r0) eqn:E; [|by rewrite !orb_false_r].
      rewrite orb_true_r. apply existsb_exists.
      apply existsb_exists in Edup as (e & He & Hsame).
      exists e. split; [done|]. by apply (same_mapping_trans e r r0). }
    rewrite IH1, IH2, Espec. simpl. split; [done|lia].
  - destruct (IH (mkd (seen st ++ [row_key (csv_row r)]) (unique st ++ [csv_row r])
                      (dupes st)) (earlier ++ [r]) Hnd) as [IH1 IH2].
    { intros r0 Hr0. simpl. unfold set_mem in *. rewrite !existsb_app. simpl.
      rewrite (Hinv r0 Hr0). by rewrite row_key_same_mapping. }
    rewrite IH1, IH2, Espec. simpl. by rewrite <- app_assoc.
Qed.

(** C3: on records with distinct field names, Phase 1 keeps and drops
    the records the specification says: a record is dropped exactly when
    some earlier record is the same mapping ([spec_dedupe]); two records
    are the same mapping exactly when every field has the same string in
    both, so the order of the fields does not matter and no value is
    normalised; the first record is always kept, and [duplicates] is the
    number of records dropped. *)
Theorem dedupe_spec (rs : list (list (string * string))) :
  Forall (fun r => NoDup (keys r)) rs ->
  let d := dedupe (map csv_row rs) in
  unique d = map csv_row (spec_dedupe [] rs).1 /\
  dupes d = (spec_dedupe [] rs).2 /\
  dupes d = Z.of_nat (length rs) - Z.of_nat (length (unique d)) /\
  (forall r rs', rs = r :: rs' -> exists u, unique d = csv_row r :: u) /\
  (forall a b, (same_mapping a b = true <-> forall k, dict_get a k = dict_get b k) /\
     (NoDup (keys a) -> NoDup (keys b) -> a ≡ₚ b -> same_mapping a b = true)).
Proof.
  intros Hnd d. subst d. unfold dedupe.
  destruct (dedupe_loop_spec rs (mkd [] [] 0) [] Hnd) as [Hu Hd]; [done|].
  simpl in Hu, Hd. repeat split.
  - done.
  - done.
  - rewrite Hu, Hd, length_map. pose proof (spec_dedupe_length [] rs). lia.
  - intros r rs' ->. rewrite Hu. simpl.
    destruct (spec_dedupe [r] rs') as [kept n]. simpl. eauto.
  - by apply same_mapping_spec.
  - by apply same_mapping_spec.
  - intros Ha Hb Hp. apply same_mapping_spec. by apply perm_same_mapping.
Qed.

End DedupeFacts.

(** ** The whole of [clean_data] *)

Section CleanDataFacts.
Context `{PyLib}.

Lemma dedupe_unique_prefix rows st :
  exists l, unique (fold_left dedupe_step rows st) = unique st ++ l.
Proof.
  revert st. induction rows as [|r rows IH]; intros st; simpl.
  - exists []. by rewrite app_nil_r.
  - unfold dedupe_step at 2. destruct (set_mem _ _).
    + apply (IH (mkd (seen st) (unique st) (dupes st + 1))).
    + destruct (IH (mkd (seen st ++ [row_key r]) (unique st ++ [r]) (dupes st)))
        as [l Hl].
      exists (r :: l). rewrite Hl. simpl. by rewrite <- app_assoc.
Qed.

Lemma dedupe_unique_csv rs st :
  exists us, sublist us rs /\
    unique (fold_left dedupe_step (map csv_row rs) st) = unique st ++ map csv_row us.
Proof.
  revert st. induction rs as [|r rs IH]; intros st; simpl.
  - exists []. by rewrite app_nil_r.
  - unfold dedupe_step at 2. destruct (set_mem _ _).
    + destruct (IH (mkd (seen st) (unique st) (dupes st + 1))) as (us & Hs & Hu).
      exists us. split; [by apply sublist_cons|done].
    + destruct (IH (mkd (seen st ++ [row_key (csv_row r)]) (unique st ++ [csv_row r])
                        (dupes st))) as (us & Hs & Hu).
      exists (r :: us). split; [by apply sublist_skip|].
      rewrite Hu. simpl. by rewrite <- app_assoc.
Qed.

(** C2: for any sequence of raw records, [clean_data] returns, and the
    transactions it returns are those of the accepted records, in
    non-decreasing order of timestamp, any two with the same timestamp
    in the order of the records they came from. *)
Theorem clean_data_sorted (rs : list (list (string * string))) :
  exists txns log us,
    clean_data (map csv_row rs) = Ok (txns, log) /\
    sublist us rs /\
    unique (dedupe (map csv_row rs)) = map csv_row us /\
    txns ≡ₚ omap spec_accepted us /\
    StronglySorted (fun a b => dt_ltb (timestamp b) (timestamp a) = false) txns /\
    forall d, filter (fun t => timestamp t = d) txns
              = filter (fun t => timestamp t = d) (omap spec_accepted us).
Proof.
  destruct (dedupe_unique_csv rs (mkd [] [] 0)) as (us & Hsub & Hu).
  change (unique (dedupe (map csv_row rs)) = [] ++ map csv_row us) in Hu.
  rewrite app_nil_l in Hu.
  exists (py_sorted dt_ltb timestamp false (omap spec_accepted us)),
    (cleaning_log (dedupe (map csv_row rs))
       (fold_left record_outcome (map spec_validate us) vinit)), us.
  split.
  { unfold clean_data. rewrite Hu, validate_loop_spec. unfold rbind.
    by rewrite clean_fold_outcomes. }
  split; [exact Hsub|]. split; [exact Hu|].
  unfold py_sorted.
  split; [apply sort_by_perm|].
  split; [apply (sort_by_sorted dt_ltb timestamp)|].
  intros d. apply (sort_by_stable_eq dt_ltb timestamp).
Qed.

Lemma validate_step_txn_dict st t : validate_step st (txn_dict t) = Raise AttributeError.
Proof. reflexivity. Qed.

(** C5, as the code has it: [clean_data] applied to its own output
    returns the empty sequence and an all-zero log when that output is
    empty, and otherwise raises [AttributeError], because the timestamp
    of a transaction is a [datetime] and has no [strip]. *)
Theorem clean_data_rerun (rows : list row) (txns : list txn) (log : list (string * Z)) :
  clean_data rows = Ok (txns, log) ->
  clean_data (map txn_dict txns)
  = match txns with
    | [] => Ok ([], zero_log)
    | _ :: _ => Raise AttributeError
    end.
Proof.
  intros _. destruct txns as [|t txns]; [reflexivity|].
  unfold clean_data, dedupe. simpl.
  destruct (dedupe_unique_prefix (map txn_dict txns)
              (dedupe_step (mkd [] [] 0) (txn_dict t))) as [l ->].
  reflexivity.
Qed.

End CleanDataFacts.

(** ** The index and the summary *)

Section AnalyticsFacts.
Context `{PyLib}.

Lemma codes_app a b : codes (a +:+ b) = codes a ++ codes b.
Proof.
  induction a as [|c a IH]; [done|].
  change (code c :: codes (a +:+ b) = code c :: (codes a ++ codes b)). by rewrite IH.
Qed.

Lemma codes_upper_char c :
  code c <> 181 -> code c <> 255 -> codes (upper_char c) = upper_code (code c).
Proof.
  destruct c as [[] [] [] [] [] [] [] []]; intros H1 H2;
    first [reflexivity | by destruct H1 | by destruct H2].
Qed.

(** On a string whose uppercase stays below 256, [upper] gives the
    uppercase of every code point, in order. *)
Lemma codes_upper q :
  upper_in_range q -> codes (upper q) = flat_map upper_code (codes q).
Proof.
  unfold upper_in_range. induction q as [|c q IH]; simpl; [done|].
  intros Hq. apply Forall_cons in Hq as [[H1 H2] Hq].
  by rewrite codes_app, codes_upper_char, IH.
Qed.

(** C8: for a query whose uppercase stays below 256, the key that a
    lookup uses is the query with every code point replaced by its
    uppercase; the lookup returns the sequence stored under that key, and
    the empty sequence when that key is no key of the index, and it
    cannot fail. Two queries with the same uppercase return the same
    sequence; the queries ["aapl"] and ["AAPL"] both return what the
    index holds under ["AAPL"]. *)
Theorem get_by_ticker_spec (index : list (string * list txn)) (q : string) :
  upper_in_range q ->
  codes (upper q) = flat_map upper_code (codes q) /\
  (forall txns, dict_get index (upper q) = Some txns -> get_by_ticker index q = txns) /\
  (upper q ∉ keys index -> get_by_ticker index q = []) /\
  (forall q', upper_in_range q' ->
     flat_map upper_code (codes q') = flat_map upper_code (codes q) ->
     get_by_ticker index q' = get_by_ticker index q) /\
  get_by_ticker index "aapl" = default [] (dict_get index "AAPL") /\
  get_by_ticker index "AAPL" = default [] (dict_get index "AAPL").
Proof.
  intros Hq. unfold get_by_ticker. split; [by apply codes_upper|].
  split; [by intros txns ->|]. split; [|split; [|done]].
  - intros Hout. apply dict_get_None in Hout. by rewrite Hout.
  - intros q' Hq' Hsame. rewrite <- !codes_upper in Hsame by done.
    apply codes_inj in Hsame. by rewrite Hsame.
Qed.

(** The index that [build_ticker_index] builds holds no ticker twice. *)
Lemma build_ticker_index_nodup transactions :
  NoDup (keys (build_ticker_index transactions)).
Proof.
  unfold build_ticker_index.
  assert (forall index : list (string * list txn), NoDup (keys index) ->
    NoDup (keys (fold_left
      (fun index t =>
         dict_set index (ticker t) (default [] (dict_get index (ticker t)) ++ [t]))
      transactions index))) as Hgen.
  { induction transactions as [|t l IH]; intros index Hnd; simpl; [done|].
    apply IH. by apply dict_set_nodup. }
  apply Hgen. constructor.
Qed.

Lemma get_summary_inv transactions index s :
  get_summary transactions index = Ok s ->
  total_transactions s = Z.of_nat (length transactions) /\
  total_buys s = Z.of_nat (length (filter (fun t => action t = "BUY") transactions)) /\
  total_sells s = total_transactions s - total_buys s /\
  unique_traders_count s
    = Z.of_nat (size (list_to_set (map trader_id transactions) : gset string)).
Proof.
  unfold get_summary.
  destruct (dollar_volume transactions); simpl; [|done].
  destruct (total_volume_by_ticker index); simpl; [|done].
  destruct (time_based_analysis transactions); simpl; [|done].
  by intros [= <-].
Qed.

(** C6: in every summary that [get_summary] produces, the buys and the
    sells add up to the number of transactions, which is the length of
    the sequence; the buys are the transactions whose action is BUY. *)
Theorem summary_counts (transactions : list txn) (index : list (string * list txn))
    (s : summary) :
  get_summary transactions index = Ok s ->
  total_buys s + total_sells s = total_transactions s /\
  total_transactions s = Z.of_nat (length transactions) /\
  total_buys s = Z.of_nat (length (filter (fun t => action t = "BUY") transactions)).
Proof.
  intros Hs. apply get_summary_inv in Hs as (Ht & Hb & Hsell & _).
  repeat split; try done. lia.
Qed.

End AnalyticsFacts.

(** ** Volume by ticker *)

Section VolumeFacts.
Context `{PyLib}.




End VolumeFacts.

(** ** The peak hour *)

Section MaxFacts.
Context {A : Type} (key : A -> Z).

Lemma py_max_snoc x l y :
  py_max Z.ltb key x (l ++ [y])
  = if key (py_max Z.ltb key x l) <? key y then y else py_max Z.ltb key x l.
Proof. unfold py_max. by rewrite fold_left_app. Qed.

(** [max] returns the first of the maximal elements: everything before
    it is strictly below it, everything after it is not above it. *)
Lemma py_max_first x l :
  exists l1 l2, x :: l = l1 ++ py_max Z.ltb key x l :: l2 /\
    Forall (fun y => key y < key (py_max Z.ltb key x l)) l1 /\
    Forall (fun y => key y <= key (py_max Z.ltb key x l)) l2.
Proof.
  induction l as [|y l IH] using rev_ind.
  - exists [], []. by repeat split.
  - destruct IH as (l1 & l2 & Hl & H1 & H2). rewrite py_max_snoc.
    set (r := py_max Z.ltb key x l) in *.
    destruct (Z.ltb_spec (key r) (key y)) as [Hlt|Hge].
    + exists (x :: l), []. split; [done|]. split; [|constructor].
      rewrite Hl. apply Forall_app. split; [|constructor; [done|]].
      * eapply Forall_impl; [exact H1|]. simpl. lia.
      * eapply Forall_impl; [exact H2|]. simpl. lia.
    + exists l1, (l2 ++ [y]). split.
      * rewrite app_comm_cons, Hl, <- app_assoc. done.
      * split; [done|]. apply Forall_app. split; [done|]. by constructor.
Qed.

End MaxFacts.

Section CountFacts.
Context {A K : Type} `{EqDecision K} (f : A -> K).

Lemma occurrences_nonneg l k : 0 <= occurrences f l k.
Proof. unfold occurrences. lia. Qed.

Lemma count_by_get l counts k :
  default 0 (dict_get (count_by f l counts) k)
  = default 0 (dict_get counts k) + occurrences f l k.
Proof.
  unfold count_by, occurrences.
  revert counts. induction l as [|t l IH]; intros counts; simpl; [lia|].
  rewrite IH. unfold count_incr. rewrite filter_cons.
  destruct (decide (f t = k)) as [->|Hne].
  - rewrite dict_get_set_eq. simpl. lia.
  - rewrite dict_get_set_ne by done. lia.
Qed.

Lemma count_by_snoc l t counts :
  count_by f (l ++ [t]) counts = count_incr (count_by f l counts) (f t).
Proof. unfold count_by. by rewrite fold_left_app. Qed.

Lemma count_by_keys_elem l k : k ∈ keys (count_by f l []) <-> k ∈ map f l.
Proof.
  induction l as [|t l IH] using rev_ind.
  - done.
  - rewrite count_by_snoc. unfold count_incr. rewrite keys_dict_set.
    rewrite map_app, !elem_of_app, IH. simpl. rewrite list_elem_of_singleton.
    destruct (decide (f t ∈ keys (count_by f l []))) as [Hin|Hout].
    + rewrite elem_of_nil. split; [tauto|]. intros [?| ->]; [tauto|].
      left. by apply IH.
    + by rewrite list_elem_of_singleton.
Qed.

(** The keys of the counting dict stand in the order in which they were
    first seen. *)
Lemma count_by_keys_order l ks1 k ks2 :
  keys (count_by f l []) = ks1 ++ k :: ks2 ->
  exists pre post, map f l = pre ++ (k :: post) /\ (k ∉ pre) /\
    forall x, x ∈ pre -> x ∈ ks1.
Proof.
  revert ks1 ks2. induction l as [|t l IH] using rev_ind; intros ks1 ks2.
  - simpl. intros E. by destruct ks1.
  - rewrite count_by_snoc. unfold count_incr. rewrite keys_dict_set.
    rewrite map_app. simpl.
    destruct (decide (f t ∈ keys (count_by f l []))) as [Hin|Hout].
    + rewrite app_nil_r. intros E.
      destruct (IH _ _ E) as (pre & post & -> & Hk & Hpre).
      exists pre, (post ++ [f t]). split; [by rewrite <- app_assoc|done].
    + destruct ks2 as [|x ks2 _] using rev_ind.
      * intros E. apply app_inj_tail in E as [E <-].
        exists (map f l), []. split; [done|].
        split; [by rewrite <- count_by_keys_elem|].
        intros x Hx. rewrite <- E. by apply count_by_keys_elem.
      * rewrite app_comm_cons, app_assoc. intros E.
        apply app_inj_tail in E as [E <-].
        destruct (IH _ _ E) as (pre & post & -> & Hk & Hpre).
        exists pre, (post ++ [f t]). split; [by rewrite <- app_assoc|done].
Qed.

End CountFacts.

Section PeakHourFacts.
Context `{PyLib}.

Lemma time_loop_hourly s transactions s' :
  time_loop s transactions = Ok s' ->
  hourly s' = count_by hour_of transactions (hourly s).
Proof.
  revert s. induction transactions as [|t l IH]; intros s; simpl.
  - by intros [= <-].
  - unfold time_step. destruct (mul_int_float _ _); simpl; [|done].
    intros E. by rewrite (IH _ E).
Qed.

(** C4, as the code has it: on a non-empty transaction sequence the
    peak hour is an hour with the highest transaction count, and among
    the hours that tie for it the one that the sequence reaches first:
    every hour seen before the first transaction of the peak hour has a
    strictly lower count. *)
Theorem peak_hour_first_seen (transactions : list txn) (ta : time_analysis) :
  transactions <> [] ->
  time_based_analysis transactions = Ok ta ->
  exists h pre post,
    peak_hour ta = VInt h /\
    map hour_of transactions = pre ++ (h :: post) /\
    (h ∉ pre) /\
    (forall h', occurrences hour_of transactions h' <= occurrences hour_of transactions h) /\
    (forall h', h' ∈ pre ->
       occurrences hour_of transactions h' < occurrences hour_of transactions h).
Proof.
  intros Hne. unfold time_based_analysis.
  destruct (time_loop (mkt [] [] []) transactions) as [s|] eqn:Eloop; simpl; [|done].
  intros [= <-]. simpl. apply time_loop_hourly in Eloop. simpl in Eloop.
  assert (forall k, default 0 (dict_get (hourly s) k) = occurrences hour_of transactions k)
    as Hcount.
  { intros k. rewrite Eloop, count_by_get. simpl. lia. }
  unfold peak_hour_of.
  destruct (keys (hourly s)) as [|k ks] eqn:Ek.
  { destruct transactions as [|t l]; [done|].
    assert (hour_of t ∈ keys (hourly s)) as Hin.
    { rewrite Eloop. apply count_by_keys_elem. simpl. apply list_elem_of_here. }
    rewrite Ek in Hin. by apply elem_of_nil in Hin. }
  destruct (py_max_first (fun k => default 0 (dict_get (hourly s) k)) k ks)
    as (l1 & l2 & Hl & H1 & H2).
  set (h := py_max Z.ltb (fun k => default 0 (dict_get (hourly s) k)) k ks) in *.
  rewrite <- Ek, Eloop in Hl.
  destruct (count_by_keys_order hour_of transactions l1 h l2 Hl)
    as (pre & post & Hmap & Hpre & Hsub).
  exists h, pre, post. repeat split; try done.
  - intros h'. rewrite <- !Hcount.
    destruct (decide (h' ∈ keys (hourly s))) as [Hin|Hout].
    + rewrite Eloop, Hl in Hin.
      apply elem_of_app in Hin as [Hin|Hin].
      * rewrite Forall_forall in H1. specialize (H1 h' Hin). simpl in H1. lia.
      * apply elem_of_cons in Hin as [->|Hin]; [lia|].
        rewrite Forall_forall in H2. apply (H2 h' Hin).
    + apply dict_get_None in Hout. rewrite Hout. simpl.
      rewrite Hcount. apply occurrences_nonneg.
  - intros h' Hin. rewrite <- !Hcount.
    rewrite Forall_forall in H1. apply (H1 h'). by apply Hsub.
Qed.

End PeakHourFacts.

(** * Further properties of the code *)

(** ** What the cleaning pipeline guarantees on any input *)

Lemma append_assoc (a b c : string) : (a +:+ b) +:+ c = a +:+ (b +:+ c).
Proof.
  induction a as [|x a IH]; [done|].
  change (String x ((a +:+ b) +:+ c) = String x (a +:+ (b +:+ c))). by rewrite IH.
Qed.

Lemma upper_app a b : upper (a +:+ b) = upper a +:+ upper b.
Proof.
  induction a as [|c a IH]; simpl; [done|]. rewrite IH. symmetry. apply append_assoc.
Qed.

Lemma upper_char_idem c : upper (upper_char c) = upper_char c.
Proof. by destruct c as [[] [] [] [] [] [] [] []]. Qed.

Lemma upper_idem s : upper (upper s) = upper s.
Proof.
  induction s as [|c s IH]; simpl; [done|].
  by rewrite upper_app, upper_char_idem, IH.
Qed.

Lemma upper_empty s : upper s = EmptyString -> s = EmptyString.
Proof.
  destruct s as [|c s]; [done|]. simpl.
  by destruct c as [[] [] [] [] [] [] [] []].
Qed.

Section PipelineInvariants.
Context `{PyLib}.

Lemma blank_false r k :
  blank r k = Ok false ->
  exists s, dict_get r k = Some (VStr s) /\ strip s <> EmptyString.
Proof.
  unfold blank, get_or.
  destruct (dict_get r k) as [[s| | |]|]; simpl; try done.
  intros [= E]. exists s. split; [done|]. by destruct (strip s).
Qed.

Ltac rejected_for why := intros [= <-]; left; exists why; reflexivity.

Ltac step_done :=
  simpl; try discriminate;
  try first
    [ rejected_for Missing_timestamp | rejected_for Missing_ticker
    | rejected_for Missing_price | rejected_for Missing_action
    | rejected_for Parse_errors | rejected_for Invalid_action
    | rejected_for Negative_zero_price | rejected_for Zero_negative_qty ].

(** One iteration either counts the record under one reason, or appends
    one valid transaction; it changes nothing else. *)
Lemma validate_step_cases st r st' :
  validate_step st r = Ok st' ->
  (exists why, st' = record_outcome st (Rejected why)) \/
  (exists t, st' = append_clean st t /\ valid_txn t).
Proof.
  unfold validate_step.
  destruct (blank r "timestamp") as [[|]|] eqn:B1; step_done.
  destruct (blank r "ticker") as [[|]|] eqn:B2; step_done.
  destruct (blank r "price") as [[|]|] eqn:B3; step_done.
  destruct (blank r "action") as [[|]|] eqn:B4; step_done.
  apply blank_false in B1 as (ts & Ets & _).
  apply blank_false in B2 as (tk & Etk & Htk).
  apply blank_false in B3 as (p & Ep & _).
  apply blank_false in B4 as (ac & Eac & _).
  unfold try_body, getitem, get_or. rewrite Ets, Etk, Ep, Eac. simpl.
  destruct (float_of_str p) as [pf|]; step_done.
  assert (forall q : result Z,
    try_except
      (do quantity <- q;
       do timestamp <- of_option ValueError (strptime (strip ts));
       do trader_id <- py_strip (default (VStr "UNKNOWN") (dict_get r "trader_id"));
       if negb (bool_decide (upper (strip ac) = "BUY")
                || bool_decide (upper (strip ac) = "SELL"))
       then Ok (incr_bad_action st)
       else if float_le0 pf then Ok (incr_bad_price st)
       else if quantity <=? 0 then Ok (incr_bad_qty st)
       else Ok (append_clean st
                  (mktxn timestamp (upper (strip tk)) (upper (strip ac)) quantity pf
                     trader_id)))
      (incr_parse_err st) = Ok st' ->
    (exists why, st' = record_outcome st (Rejected why)) \/
    (exists t, st' = append_clean st t /\ valid_txn t)) as Hrest.
  { intros [qz|e]; [|destruct e; step_done]. simpl.
    destruct (strptime (strip ts)) as [d|]; step_done.
    destruct (py_strip _) as [tr|e]; [|destruct e; step_done]. simpl.
    destruct (decide (upper (strip ac) = "BUY")) as [E1|E1],
             (decide (upper (strip ac) = "SELL")) as [E2|E2];
      rewrite ?(bool_decide_eq_true_2 _ E1), ?(bool_decide_eq_false_2 _ E1),
              ?(bool_decide_eq_true_2 _ E2), ?(bool_decide_eq_false_2 _ E2);
      step_done.
    all: destruct (float_le0 pf) eqn:Epf; step_done.
    all: destruct (Z.leb_spec qz 0); step_done.
    all: intros [= <-]; right; eexists; split; [reflexivity|].
    all: unfold valid_txn; simpl; repeat split; auto using upper_idem.
    all: intros E; by apply upper_empty in E. }
  destruct (dict_get r "quantity") as [v|]; [|step_done].
  apply Hrest.
Qed.

Lemma rejected_total_outcome st why :
  rejected_total (record_outcome st (Rejected why)) = rejected_total st + 1 /\
  clean (record_outcome st (Rejected why)) = clean st.
Proof. destruct why; unfold rejected_total; simpl; split; (lia || done). Qed.

Lemma validate_loop_inv rows st st' :
  validate_loop st rows = Ok st' ->
  (Forall valid_txn (clean st) -> Forall valid_txn (clean st')) /\
  (counters_nonneg st -> counters_nonneg st') /\
  Z.of_nat (length (clean st')) + rejected_total st'
  = Z.of_nat (length (clean st)) + rejected_total st + Z.of_nat (length rows).
Proof.
  revert st. induction rows as [|r rows IH]; intros st; simpl.
  { intros [= <-]. split; [done|]. split; [done|lia]. }
  destruct (validate_step st r) as [st1|] eqn:Estep; simpl; [|done].
  intros Hloop. destruct (IH _ Hloop) as (IHv & IHn & IHc).
  apply validate_step_cases in Estep as [[why ->]|(t & -> & Ht)].
  - destruct (rejected_total_outcome st why) as [Hr Hc].
    rewrite Hr, Hc in *. split; [done|]. split; [|lia].
    intros Hn. apply IHn. unfold counters_nonneg in *.
    destruct why; simpl; lia.
  - split; [|split].
    + intros Hv. apply IHv. simpl. apply Forall_app. split; [done|by constructor].
    + done.
    + simpl in IHc. rewrite length_app in IHc. simpl in IHc.
      unfold rejected_total in *. simpl in IHc. lia.
Qed.

Lemma dedupe_count rows st :
  Z.of_nat (length (unique (fold_left dedupe_step rows st)))
    + dupes (fold_left dedupe_step rows st)
  = Z.of_nat (length (unique st)) + dupes st + Z.of_nat (length rows) /\
  dupes st <= dupes (fold_left dedupe_step rows st).
Proof.
  revert st. induction rows as [|r rows IH]; intros st; simpl; [lia|].
  unfold dedupe_step at 2 4 6. destruct (set_mem _ _).
  - destruct (IH (mkd (seen st) (unique st) (dupes st + 1))) as [IH1 IH2].
    simpl in *. lia.
  - destruct (IH (mkd (seen st ++ [row_key r]) (unique st ++ [r]) (dupes st)))
      as [IH1 IH2].
    simpl in *. rewrite length_app in IH1. simpl in IH1. lia.
Qed.

Lemma clean_data_inv rows txns log :
  clean_data rows = Ok (txns, log) ->
  exists s, validate_loop vinit (unique (dedupe rows)) = Ok s /\
    txns = sort_by dt_ltb timestamp (clean s) /\
    log = cleaning_log (dedupe rows) s.
Proof.
  unfold clean_data.
  destruct (validate_loop vinit (unique (dedupe rows))) as [s|]; simpl; [|done].
  intros [= <- <-]. by exists s.
Qed.

(** Every transaction that [clean_data] returns, on any input on which
    it returns, has action BUY or SELL, a positive quantity, a price that
    is not [<= 0], and a ticker that is not empty and is in uppercase. *)
Theorem clean_data_valid (rows : list row) (txns : list txn) (log : list (string * Z)) :
  clean_data rows = Ok (txns, log) -> Forall valid_txn txns.
Proof.
  intros Hrun. apply clean_data_inv in Hrun as (s & Hloop & -> & _).
  apply validate_loop_inv in Hloop as (Hv & _).
  rewrite sort_by_perm. apply Hv. constructor.
Qed.

(** Every input record is accounted for once: the number of records is
    the number of transactions returned plus the sum of the counters of
    the log. *)
Theorem clean_data_accounts (rows : list row) (txns : list txn) (log : list (string * Z)) :
  clean_data rows = Ok (txns, log) ->
  Z.of_nat (length rows) = Z.of_nat (length txns) + sum_counts log.
Proof.
  intros Hrun. apply clean_data_inv in Hrun as (s & Hloop & -> & ->).
  apply validate_loop_inv in Hloop as (_ & _ & Hc).
  destruct (dedupe_count rows (mkd [] [] 0)) as [Hd _].
  fold (dedupe rows) in Hd. simpl in Hd, Hc.
  rewrite (Permutation_length (sort_by_perm dt_ltb timestamp (clean s))).
  unfold sum_counts, cleaning_log, rejected_total, vinit in *. simpl in *. lia.
Qed.

(** The log of every run holds the same nine counters in the same
    order, and none of them is negative. *)
Theorem cleaning_log_shape (rows : list row) (txns : list txn) (log : list (string * Z)) :
  clean_data rows = Ok (txns, log) ->
  map fst log
  = [ "duplicates"; "missing_timestamp"; "missing_ticker"; "missing_price";
      "missing_action"; "invalid_action"; "negative_zero_price";
      "zero_negative_qty"; "parse_errors" ] /\
  Forall (fun kv => 0 <= snd kv) log.
Proof.
  intros Hrun. apply clean_data_inv in Hrun as (s & Hloop & _ & ->).
  split; [done|].
  apply validate_loop_inv in Hloop as (_ & Hn & _).
  destruct Hn as (? & ? & ? & ? & ? & ? & ? & ?).
  { unfold counters_nonneg, vinit. simpl. lia. }
  destruct (dedupe_count rows (mkd [] [] 0)) as [_ Hd].
  fold (dedupe rows) in Hd. simpl in Hd.
  unfold cleaning_log. repeat constructor; simpl; lia.
Qed.

End PipelineInvariants.

(** ** Field order, and Phase 1 on its own output *)

Section RecordFacts.
Context `{PyLib}.

Lemma spec_validate_ext a b :
  (forall k, dict_get a k = dict_get b k) -> spec_validate a = spec_validate b.
Proof.
  intros Hk. unfold spec_validate, spec_missing, spec_parse. by rewrite !Hk.
Qed.

(** Two records that hold the same string under every field name are
    judged alike by the validation loop, whatever the order in which
    their fields stand. *)
Theorem validate_step_field_order (st : vstate) (a b : list (string * string)) :
  (forall k, dict_get a k = dict_get b k) ->
  validate_step st (csv_row a) = validate_step st (csv_row b).
Proof.
  intros Hk. rewrite !validate_step_spec. by rewrite (spec_validate_ext a b).
Qed.

Lemma existsb_subset {A} (f : A -> bool) (l l' : list A) :
  (forall x, x ∈ l' -> x ∈ l) -> existsb f l = false -> existsb f l' = false.
Proof.
  intros Hsub Hl. destruct (existsb f l') eqn:E; [|done].
  apply existsb_exists in E as (x & Hx & Hfx).
  assert (existsb f l = true) as Hl'; [|congruence].
  apply existsb_exists. exists x. split; [|done].
  apply list_elem_of_In, Hsub, list_elem_of_In, Hx.
Qed.

Lemma spec_dedupe_idem rs earlier earlier' :
  (forall e, e ∈ earlier' -> e ∈ earlier) ->
  spec_dedupe earlier' (spec_dedupe earlier rs).1 = ((spec_dedupe earlier rs).1, 0).
Proof.
  revert earlier earlier'. induction rs as [|r rs IH]; intros E E' Hsub; simpl; [done|].
  destruct (spec_dedupe (E ++ [r]) rs) as [kept n] eqn:Ekept.
  destruct (existsb (fun e => same_mapping e r) E) eqn:Edup; simpl.
  - specialize (IH (E ++ [r]) E'). rewrite Ekept in IH. apply IH.
    intros e He. apply elem_of_app. left. by apply Hsub.
  - specialize (IH (E ++ [r]) (E' ++ [r])). rewrite Ekept in IH. simpl in IH.
    rewrite IH.
    + by rewrite (existsb_subset _ E E').
    + intros e. rewrite !elem_of_app. intros [He|He]; [left; by apply Hsub|by right].
Qed.

Lemma spec_dedupe_Forall (P : list (string * string) -> Prop) rs earlier :
  Forall P rs -> Forall P (spec_dedupe earlier rs).1.
Proof.
  revert earlier. induction rs as [|r rs IH]; intros E Hrs; simpl; [done|].
  apply Forall_cons in Hrs as [Hr Hrs]. specialize (IH (E ++ [r]) Hrs).
  destruct (spec_dedupe (E ++ [r]) rs) as [kept n].
  destruct (existsb _ E); simpl in *; [done|by constructor].
Qed.

(** Phase 1 finds nothing to drop in what Phase 1 has kept: on records
    with distinct field names, removing the duplicates of the
    deduplicated sequence returns that sequence and counts no
    duplicate. *)
Theorem dedupe_idempotent (rs : list (list (string * string))) :
  Forall (fun r => NoDup (keys r)) rs ->
  unique (dedupe (unique (dedupe (map csv_row rs)))) = unique (dedupe (map csv_row rs)) /\
  dupes (dedupe (unique (dedupe (map csv_row rs)))) = 0.
Proof.
  intros Hnd.
  destruct (dedupe_loop_spec rs (mkd [] [] 0) [] Hnd) as [Hu _]; [done|].
  simpl in Hu. fold (dedupe (map csv_row rs)) in Hu. rewrite Hu.
  pose proof (spec_dedupe_Forall _ rs [] Hnd) as Hkept.
  destruct (dedupe_loop_spec _ (mkd [] [] 0) [] Hkept) as [Hu2 Hd2]; [done|].
  unfold dedupe. rewrite Hu2, Hd2, spec_dedupe_idem by done. done.
Qed.

End RecordFacts.

(** ** The ticker index *)

Section IndexFacts.
Context `{PyLib}.

Lemma index_fold_get transactions index k :
  default [] (dict_get (fold_left index_step transactions index) k)
  = default [] (dict_get index k) ++ filter (fun t => ticker t = k) transactions.
Proof.
  revert index. induction transactions as [|t l IH]; intros index; simpl.
  - by rewrite app_nil_r.
  - rewrite IH. unfold index_step. rewrite filter_cons.
    destruct (decide (ticker t = k)) as [->|Hne].
    + rewrite dict_get_set_eq. simpl. by rewrite <- app_assoc.
    + by rewrite dict_get_set_ne.
Qed.

(** Looking a ticker up in the index built from a sequence returns the
    transactions of the sequence that carry the uppercased ticker, in the
    order of the sequence. *)
Theorem build_ticker_index_lookup (transactions : list txn) (q : string) :
  get_by_ticker (build_ticker_index transactions) q
  = filter (fun t => ticker t = upper q) transactions.
Proof.
  unfold get_by_ticker, build_ticker_index.
  change (fold_left _ transactions []) with (fold_left index_step transactions []).
  by rewrite index_fold_get.
Qed.

Lemma index_step_concat index t :
  concat (map snd (index_step index t)) ≡ₚ t :: concat (map snd index).
Proof.
  unfold index_step. induction index as [|[k g] index IH]; simpl; [done|].
  destruct (decide (k = ticker t)) as [->|Hne]; simpl.
  - rewrite <- app_assoc. simpl. symmetry. apply Permutation_middle.
  - rewrite IH. symmetry. apply Permutation_middle.
Qed.

Lemma index_step_nonempty index t :
  Forall (fun kv => snd kv <> []) index ->
  Forall (fun kv => snd kv <> []) (index_step index t).
Proof.
  unfold index_step. induction index as [|[k g] index IH]; simpl; intros Hne.
  - constructor; [|done]. simpl. discriminate.
  - apply Forall_cons in Hne as [Hg Hne].
    destruct (decide (k = ticker t)) as [->|Hk].
    + constructor; [|done]. simpl. intros E. by apply app_eq_nil in E as [_ ?].
    + constructor; [done|by apply IH].
Qed.

Lemma index_fold_inv transactions index :
  NoDup (keys index) -> Forall (fun kv => snd kv <> []) index ->
  NoDup (keys (fold_left index_step transactions index)) /\
  Forall (fun kv => snd kv <> []) (fold_left index_step transactions index) /\
  concat (map snd (fold_left index_step transactions index))
    ≡ₚ concat (map snd index) ++ transactions.
Proof.
  revert index. induction transactions as [|t l IH]; intros index Hnd Hne; simpl.
  - by rewrite app_nil_r.
  - destruct (IH (index_step index t)) as (IH1 & IH2 & IH3).
    + by apply dict_set_nodup.
    + by apply index_step_nonempty.
    + repeat split; [done|done|].
      rewrite IH3, index_step_concat. simpl. apply Permutation_middle.
Qed.

(** The index holds every ticker of the sequence once; the group of a
    ticker is not empty and is the transactions of that ticker in the
    order of the sequence; together the groups hold every transaction
    exactly once. *)
Theorem build_ticker_index_groups (transactions : list txn) :
  NoDup (keys (build_ticker_index transactions)) /\
  (forall k g, (k, g) ∈ build_ticker_index transactions ->
     g <> [] /\ g = filter (fun t => ticker t = k) transactions) /\
  (forall t, t ∈ transactions -> ticker t ∈ keys (build_ticker_index transactions)) /\
  concat (map snd (build_ticker_index transactions)) ≡ₚ transactions.
Proof.
  unfold build_ticker_index.
  change (fold_left _ transactions []) with (fold_left index_step transactions []).
  destruct (index_fold_inv transactions []) as (Hnd & Hne & Hperm);
    [constructor|constructor|].
  split; [done|]. split; [|split; [|done]].
  - intros k g Hin. split.
    + rewrite Forall_forall in Hne. apply (Hne _ Hin).
    + pose proof (index_fold_get transactions [] k) as Hget.
      rewrite (dict_get_elem _ k g Hnd Hin) in Hget. done.
  - intros t Ht.
    destruct (decide (ticker t ∈ keys (fold_left index_step transactions [])))
      as [|Hout]; [done|].
    apply dict_get_None in Hout.
    pose proof (index_fold_get transactions [] (ticker t)) as Hget.
    rewrite Hout in Hget. simpl in Hget.
    assert (t ∈ filter (fun u => ticker u = ticker t) transactions) as Hin
      by (by apply list_elem_of_filter).
    rewrite <- Hget in Hin. by apply elem_of_nil in Hin.
Qed.

Lemma get_summary_tickers transactions index s :
  get_summary transactions index = Ok s ->
  unique_tickers s = sort_by str_ltb id (keys index).
Proof.
  unfold get_summary.
  destruct (dollar_volume transactions); simpl; [|done].
  destruct (total_volume_by_ticker index); simpl; [|done].
  destruct (time_based_analysis transactions); simpl; [|done].
  by intros [= <-].
Qed.

(** The tickers of a summary are the keys of the index in strictly
    ascending order, each once. *)
Theorem unique_tickers_sorted (transactions : list txn)
    (index : list (string * list txn)) (s : summary) :
  NoDup (keys index) ->
  get_summary transactions index = Ok s ->
  unique_tickers s ≡ₚ keys index /\
  StronglySorted (fun a b => str_ltb a b = true) (unique_tickers s).
Proof.
  intros Hnd Hs. apply get_summary_tickers in Hs as ->.
  split; [apply sort_by_perm|].
  apply (sorted_strict str_ltb id).
  - apply sort_by_sorted, _.
  - by rewrite map_id, sort_by_perm.
Qed.

End IndexFacts.

(** ** The time range *)

Section TimeRangeFacts.
Context `{PyLib}.

Lemma filter_none {A} (P : A -> Prop) `{forall x, Decision (P x)} (l : list A) :
  Forall (fun x => ~ P x) l -> filter P l = [].
Proof.
  induction 1 as [|x l Hx _ IH]; [done|].
  by rewrite filter_cons_False.
Qed.

(** On a sequence in non-decreasing order of timestamp, as [clean_data]
    returns it, the transactions of a time range are one contiguous
    stretch: all that stand before it are earlier than [start], all that
    stand after it are later than [end]. *)
Theorem time_range_segment (transactions : list txn) (start end_ : datetime) :
  StronglySorted (fun a b => dt_ltb (timestamp b) (timestamp a) = false) transactions ->
  exists before after,
    transactions = before ++ get_by_time_range transactions start end_ ++ after /\
    Forall (fun t => dt_ltb (timestamp t) start = true) before /\
    Forall (fun t => dt_ltb end_ (timestamp t) = true) after.
Proof.
  unfold get_by_time_range, dt_leb.
  induction transactions as [|x l IH]; intros Hs.
  { exists [], []. by repeat split. }
  apply StronglySorted_inv in Hs as [Hl Hx].
  destruct (IH Hl) as (b & a & Hsplit & Hb & Ha). clear IH.
  destruct (dt_ltb (timestamp x) start) eqn:E1.
  - rewrite filter_cons_False by (rewrite E1; discriminate).
    exists (x :: b), a. split; [simpl; by f_equal|]. split; [by constructor|done].
  - assert (Forall (fun t => dt_ltb (timestamp t) start = false) l) as Hge.
    { eapply Forall_impl; [exact Hx|]. intros y Hy. simpl in Hy.
      by apply (lt_negtrans (lt := dt_ltb) start (timestamp x) (timestamp y)). }
    destruct (dt_ltb end_ (timestamp x)) eqn:E2.
    + rewrite filter_cons_False by (rewrite E1, E2; discriminate).
      assert (Forall (fun t => dt_ltb end_ (timestamp t) = true) l) as Hgt.
      { eapply Forall_impl; [exact Hx|]. intros y Hy. simpl in Hy.
        destruct (dt_ltb end_ (timestamp y)) eqn:E3; [done|].
        pose proof (lt_negtrans (lt := dt_ltb) (timestamp x) (timestamp y) end_ Hy E3).
        congruence. }
      rewrite filter_none.
      * exists [], (x :: l). split; [done|]. split; [done|by constructor].
      * eapply Forall_impl; [exact Hgt|]. intros y Hy. simpl in Hy.
        rewrite Hy, andb_false_r. discriminate.
    + rewrite filter_cons_True by (by rewrite E1, E2).
      assert (b = []) as ->.
      { destruct b as [|y b]; [done|].
        apply Forall_cons in Hb as [Hy _].
        rewrite Forall_forall in Hge. rewrite (Hge y) in Hy; [done|].
        rewrite Hsplit. apply list_elem_of_here. }
      exists [], a. split; [simpl in *; by f_equal|]. by split.
Qed.

End TimeRangeFacts.

(** ** Net positions and the most active traders *)

Section RankingFacts.
Context `{PyLib}.

Lemma StronglySorted_weaken {A} (R R' : A -> A -> Prop) (l : list A) :
  (forall a b, R a b -> R' a b) -> StronglySorted R l -> StronglySorted R' l.
Proof.
  intros HR. induction 1 as [|x l Hs IH Hx]; constructor; [done|].
  eapply Forall_impl; [exact Hx|]. apply HR.
Qed.

Lemma net_of_acc (l : list txn) (n : Z) :
  fold_left
    (fun net t => if bool_decide (action t = "BUY") then net + quantity t
                  else net - quantity t) l n
  = n + qty_sum (filter (fun t => action t = "BUY") l)
      - qty_sum (filter (fun t => action t <> "BUY") l).
Proof.
  revert n. induction l as [|t l IH]; intros n; simpl; [lia|].
  rewrite IH, !filter_cons.
  destruct (decide (action t = "BUY")) as [E|E].
  - rewrite bool_decide_eq_true_2, decide_False by auto. simpl. lia.
  - rewrite bool_decide_eq_false_2, decide_True by auto. simpl. lia.
Qed.

Lemma positions_fold (index : list (string * list txn)) (d : list (string * Z)) :
  fold_left (fun positions kv => dict_set positions (fst kv) (net_of (snd kv))) index d
  = fold_left (fun d kv => dict_set d (fst kv) (snd kv))
      (map (fun kv => (fst kv, net_of (snd kv))) index) d.
Proof.
  revert d. induction index as [|kv index IH]; intros d; simpl; [done|]. apply IH.
Qed.

Global Instance Z_gtb_weak : StrictWeak (fun a b : Z => b <? a).
Proof. split; intros *; rewrite ?Z.ltb_lt, ?Z.ltb_ge; lia. Qed.

(** On an index that holds no ticker twice, the net position of a
    ticker is the quantity bought minus the quantity of every other
    transaction of the ticker; the result lists every ticker once, in
    descending order of the absolute net position, and the tickers that
    tie keep the order they have in the index. *)
Theorem net_position_spec (index : list (string * list txn)) :
  NoDup (keys index) ->
  let positions := map (fun kv => (fst kv, net_of (snd kv))) index in
  (forall g, net_of g = qty_sum (filter (fun t => action t = "BUY") g)
                        - qty_sum (filter (fun t => action t <> "BUY") g)) /\
  net_position_by_ticker index ≡ₚ positions /\
  (forall k g, (k, g) ∈ index ->
     dict_get (net_position_by_ticker index) k = Some (net_of g)) /\
  StronglySorted (fun a b => Z.abs (snd b) <= Z.abs (snd a)) (net_position_by_ticker index) /\
  forall n, filter (fun kv => Z.abs (snd kv) = n) (net_position_by_ticker index)
            = filter (fun kv => Z.abs (snd kv) = n) positions.
Proof.
  intros Hnd positions.
  assert (keys positions = keys index) as Hkeys.
  { unfold keys, positions. rewrite map_map. done. }
  assert (net_position_by_ticker index
          = sort_by (fun a b => b <? a) (fun x => Z.abs (snd x)) positions) as ->.
  { unfold net_position_by_ticker, py_sorted. rewrite positions_fold.
    change (fold_left _ (map _ index) []) with (dict_of positions).
    rewrite (dict_of_nodup positions) by (by rewrite Hkeys).
    apply dict_of_nodup. unfold keys. rewrite sort_by_perm. fold (keys positions).
    by rewrite Hkeys. }
  split; [|split; [|split; [|split]]].
  - intros g. unfold net_of. rewrite net_of_acc. lia.
  - apply sort_by_perm.
  - intros k g Hin. apply dict_get_elem.
    + unfold keys. rewrite sort_by_perm. fold (keys positions). by rewrite Hkeys.
    + rewrite sort_by_perm. unfold positions.
      apply (list_elem_of_fmap_2 (fun kv => (fst kv, net_of (snd kv))) _ _ Hin).
  - eapply StronglySorted_weaken;
      [|apply (sort_by_sorted (fun a b => b <? a) (fun x => Z.abs (snd x)))].
    intros a b. unfold key_le. rewrite Z.ltb_ge. done.
  - intros n. apply (sort_by_stable_eq (fun a b => b <? a) (fun x => Z.abs (snd x))).
Qed.

Lemma count_by_nodup {A K} `{EqDecision K} (f : A -> K) l counts :
  NoDup (keys counts) -> NoDup (keys (count_by f l counts)).
Proof.
  unfold count_by. revert counts.
  induction l as [|t l IH]; intros counts Hnd; simpl; [done|].
  apply IH. by apply dict_set_nodup.
Qed.

Lemma occurrences_pos {A K} `{EqDecision K} (f : A -> K) l k :
  0 < occurrences f l k <-> k ∈ map f l.
Proof.
  unfold occurrences. induction l as [|t l IH]; simpl.
  - split; [lia|]. intros Hin. by apply elem_of_nil in Hin.
  - rewrite filter_cons, elem_of_cons. destruct (decide (f t = k)) as [->|Hne].
    + simpl. split; [by left|lia].
    + rewrite IH. split; [by right|]. intros [E|Hin]; [by subst|done].
Qed.

Lemma count_by_elem {A K} `{EqDecision K} (f : A -> K) l k c :
  (k, c) ∈ count_by f l [] <-> c = occurrences f l k /\ 0 < c.
Proof.
  pose proof (count_by_nodup f l [] (NoDup_nil_2)) as Hnd.
  pose proof (count_by_get f l [] k) as Hget. simpl in Hget.
  split.
  - intros Hin. rewrite (dict_get_elem _ k c Hnd Hin) in Hget. simpl in Hget.
    split; [lia|]. rewrite Hget. replace (0 + occurrences f l k) with (occurrences f l k) by lia.
    apply occurrences_pos. apply count_by_keys_elem.
    apply (list_elem_of_fmap_2 fst _ _ Hin).
  - intros [-> Hpos]. apply occurrences_pos, count_by_keys_elem in Hpos.
    destruct (dict_get (count_by f l []) k) as [c|] eqn:E.
    + simpl in Hget. subst c. replace (occurrences f l k) with (0 + occurrences f l k) by lia.
      by apply dict_get_Some_elem.
    + apply dict_get_None in E. done.
Qed.

(** [most_active_traders] returns as many entries as there are distinct
    traders, but no more than [top_n]; each entry holds a trader of the
    sequence with the number of its transactions; the entries stand in
    descending order of that number, no trader twice, and no trader left
    out has more transactions than one that is listed. *)
Theorem most_active_spec (transactions : list txn) (top_n : nat) :
  let res := most_active_traders transactions top_n in
  length res
    = (top_n `min` size (list_to_set (map trader_id transactions) : gset string))%nat /\
  NoDup (keys res) /\
  (forall tr c, (tr, c) ∈ res -> c = occurrences trader_id transactions tr /\ 0 < c) /\
  StronglySorted (fun a b => snd b <= snd a) res /\
  (forall tr kv, tr ∈ map trader_id transactions -> tr ∉ keys res -> kv ∈ res ->
     occurrences trader_id transactions tr <= snd kv).
Proof.
  unfold most_active_traders, py_sorted.
  change (fold_left _ transactions []) with (count_by trader_id transactions []).
  set (counts := count_by trader_id transactions []).
  set (sorted := sort_by (fun a b => b <? a) snd counts).
  assert (sorted ≡ₚ counts) as Hperm by apply sort_by_perm.
  assert (NoDup (keys counts)) as Hnd by (apply count_by_nodup; constructor).
  assert (NoDup (keys sorted)) as Hnds by (unfold keys; by rewrite Hperm).
  assert (StronglySorted (fun a b : string * Z => snd b <= snd a) sorted) as Hsorted.
  { eapply StronglySorted_weaken; [|apply (sort_by_sorted (fun a b => b <? a) snd)].
    intros a b. unfold key_le. rewrite Z.ltb_ge. done. }
  simpl. split; [|split; [|split; [|split]]].
  - rewrite length_take. f_equal.
    rewrite Hperm, <- (length_map fst counts). fold (keys counts).
    rewrite <- (size_list_to_set (C := gset string)) by done.
    f_equal. apply set_eq. intros x. rewrite !elem_of_list_to_set.
    split; intros Hx; by apply (count_by_keys_elem trader_id transactions).
  - unfold keys. rewrite <- (take_drop top_n sorted) in Hnds. unfold keys in Hnds.
    rewrite fmap_app in Hnds. by apply NoDup_app in Hnds as [? _].
  - intros tr c Hin.
    assert ((tr, c) ∈ counts) as Hc.
    { rewrite <- Hperm. by apply (subseteq_take top_n). }
    by apply count_by_elem in Hc.
  - rewrite <- (take_drop top_n sorted) in Hsorted.
    by apply StronglySorted_app_1_l in Hsorted.
  - intros tr kv Htr Hout Hkv.
    assert ((tr, occurrences trader_id transactions tr) ∈ sorted) as Hin.
    { rewrite Hperm. apply count_by_elem. split; [done|]. by apply occurrences_pos. }
    rewrite <- (take_drop top_n sorted) in Hin, Hsorted.
    apply elem_of_app in Hin as [Hin|Hin].
    + destruct Hout. apply (list_elem_of_fmap_2 fst _ _ Hin).
    + apply (StronglySorted_app_1_elem_of _ _ _ _ _ Hsorted Hkv Hin).
Qed.

End RankingFacts.

(** ** The time analysis *)

Section HistogramFacts.
Context {K : Type} `{EqDecision K}.

Lemma sum_counts_perm (d d' : list (K * Z)) : d ≡ₚ d' -> sum_counts d = sum_counts d'.
Proof.
  unfold sum_counts. induction 1; simpl; lia.
Qed.

Lemma sum_counts_incr (d : list (K * Z)) k :
  sum_counts (count_incr d k) = sum_counts d + 1.
Proof.
  unfold count_incr, sum_counts. induction d as [|[k' v'] d IH]; simpl; [lia|].
  destruct (decide (k' = k)) as [->|Hne]; simpl; lia.
Qed.

Lemma count_by_sum {A} (f : A -> K) l counts :
  sum_counts (count_by f l counts) = sum_counts counts + Z.of_nat (length l).
Proof.
  unfold count_by. revert counts.
  induction l as [|t l IH]; intros counts; simpl; [lia|].
  rewrite IH, sum_counts_incr. lia.
Qed.

Lemma count_histogram `{PyLib} (lt : K -> K -> bool) `{!StrictTotal lt}
    (f : txn -> K) (transactions : list txn) :
  histogram lt f transactions (dict_of (sort_by lt fst (count_by f transactions []))).
Proof.
  set (counts := count_by f transactions []).
  assert (NoDup (keys counts)) as Hnd by (apply count_by_nodup; constructor).
  assert (sort_by lt fst counts ≡ₚ counts) as Hperm by apply sort_by_perm.
  assert (NoDup (keys (sort_by lt fst counts))) as Hnds
    by (unfold keys; by rewrite Hperm).
  rewrite dict_of_nodup by done.
  split; [|split].
  - apply (sorted_strict lt fst); [apply sort_by_sorted, _|done].
  - intros k c. rewrite Hperm. apply count_by_elem.
  - rewrite (sum_counts_perm _ _ Hperm). unfold counts. rewrite count_by_sum.
    unfold sum_counts. simpl. lia.
Qed.

End HistogramFacts.

Section TimeFacts.
Context `{PyLib}.

Lemma time_loop_monthly s transactions s' :
  time_loop s transactions = Ok s' ->
  monthly s' = count_by month_of transactions (monthly s).
Proof.
  revert s. induction transactions as [|t l IH]; intros s; simpl.
  - by intros [= <-].
  - unfold time_step. destruct (mul_int_float _ _); simpl; [|done].
    intros E. by rewrite (IH _ E).
Qed.

Lemma time_loop_daily s transactions s' :
  time_loop s transactions = Ok s' ->
  NoDup (keys (daily_vol s)) ->
  NoDup (keys (daily_vol s')) /\
  forall k, k ∈ keys (daily_vol s') <->
            k ∈ keys (daily_vol s) \/ k ∈ map day_of transactions.
Proof.
  revert s. induction transactions as [|t l IH]; intros s; simpl.
  - intros [= <-] Hnd. split; [done|]. intros k. rewrite elem_of_nil. tauto.
  - unfold time_step. destruct (mul_int_float _ _) as [x|]; simpl; [|done].
    intros E Hnd. apply IH in E as [IH1 IH2]; simpl; [|by apply dict_set_nodup].
    split; [done|]. intros k. rewrite IH2. simpl. rewrite keys_dict_set.
    rewrite elem_of_app, elem_of_cons. fold (day_of t).
    destruct (decide (day_of t ∈ keys (daily_vol s))) as [Hin|Hout].
    + rewrite elem_of_nil. split; [tauto|].
      intros [?|[->|?]]; tauto.
    + rewrite list_elem_of_singleton. tauto.
Qed.

(** In every time analysis the hourly and the monthly counts are
    histograms of the sequence: keys in strictly ascending order, one
    entry for each hour (month) that occurs with the number of its
    transactions, and counts that add up to the number of
    transactions. *)
Theorem time_analysis_histograms (transactions : list txn) (ta : time_analysis) :
  time_based_analysis transactions = Ok ta ->
  histogram Z.ltb hour_of transactions (ta_hourly ta) /\
  histogram str_ltb month_of transactions (ta_monthly ta).
Proof.
  unfold time_based_analysis.
  destruct (time_loop (mkt [] [] []) transactions) as [s|] eqn:Eloop; simpl; [|done].
  intros [= <-]. simpl. unfold py_sorted.
  rewrite (time_loop_hourly _ _ _ Eloop), (time_loop_monthly _ _ _ Eloop). simpl.
  split; apply count_histogram; apply _.
Qed.

(** The number of trading days is the number of distinct calendar days
    on which the sequence has a transaction. *)
Theorem trading_days_distinct (transactions : list txn) (ta : time_analysis) :
  time_based_analysis transactions = Ok ta ->
  trading_days ta
  = Z.of_nat (size (list_to_set (map day_of transactions) : gset string)).
Proof.
  unfold time_based_analysis.
  destruct (time_loop (mkt [] [] []) transactions) as [s|] eqn:Eloop; simpl; [|done].
  intros [= <-]. simpl.
  apply time_loop_daily in Eloop as [Hnd Hkeys]; [|constructor].
  rewrite <- (length_map fst (daily_vol s)). fold (keys (daily_vol s)).
  rewrite <- (size_list_to_set (C := gset string)) by done.
  do 2 f_equal. apply set_eq. intros k. rewrite !elem_of_list_to_set, Hkeys.
  simpl. rewrite elem_of_nil. tauto.
Qed.

Lemma py_max_elem {A B} (lt : B -> B -> bool) (key : A -> B) x l :
  py_max lt key x l ∈ x :: l.
Proof.
  unfold py_max. revert x. induction l as [|y l IH]; intros x; simpl.
  - apply list_elem_of_here.
  - destruct (lt (key x) (key y)).
    + apply list_elem_of_further, IH.
    + specialize (IH x). apply elem_of_cons in IH as [->|Hin].
      * apply list_elem_of_here.
      * by do 2 apply list_elem_of_further.
Qed.

(** The peak hour is the sentinel ["N/A"] exactly when the sequence is
    empty; then the peak day is the sentinel too, its volume is the
    integer 0 and there is no trading day. On a sequence that is not
    empty the peak day is the day of one of its transactions, its volume
    is a float and there is at least one trading day. *)
Theorem time_analysis_sentinel (transactions : list txn) (ta : time_analysis) :
  time_based_analysis transactions = Ok ta ->
  (peak_hour ta = VStr "N/A" <-> transactions = []) /\
  (transactions = [] ->
     peak_day ta = "N/A" /\ peak_day_volume ta = NInt 0 /\ trading_days ta = 0) /\
  (transactions <> [] ->
     exists t v, t ∈ transactions /\ peak_day ta = day_of t /\
       peak_day_volume ta = NFloat v /\ 0 < trading_days ta).
Proof.
  unfold time_based_analysis.
  destruct (time_loop (mkt [] [] []) transactions) as [s|] eqn:Eloop; simpl; [|done].
  intros [= <-]. simpl.
  pose proof (time_loop_hourly _ _ _ Eloop) as Hh. simpl in Hh.
  destruct (time_loop_daily _ _ _ Eloop) as [Hnd Hd]; [constructor|]. simpl in Hd.
  split; [|split].
  - unfold peak_hour_of. destruct transactions as [|t l].
    { simpl in Eloop. injection Eloop as <-. done. }
    destruct (keys (hourly s)) as [|k ks] eqn:Ek; [|done].
    assert (hour_of t ∈ keys (hourly s)) as Hin.
    { rewrite Hh. apply count_by_keys_elem. apply list_elem_of_here. }
    rewrite Ek in Hin. by apply elem_of_nil in Hin.
  - intros ->. simpl in Eloop. injection Eloop as <-. done.
  - intros Hne. unfold peak_day_of.
    assert (forall k, k ∈ keys (daily_vol s) -> k ∈ map day_of transactions) as Hsub.
    { intros k Hk. apply Hd in Hk as [Hk|Hk]; [by apply elem_of_nil in Hk|done]. }
    assert (exists k, k ∈ keys (daily_vol s)) as [k0 Hk0].
    { destruct transactions as [|t l]; [done|].
      exists (day_of t). apply Hd. right. apply list_elem_of_here. }
    assert (forall k, k ∈ keys (daily_vol s) -> is_Some (dict_get (daily_vol s) k)) as Hsome.
    { intros k Hk. destruct (dict_get (daily_vol s) k) eqn:Ev; [done|].
      by apply dict_get_None in Ev. }
    assert (0 < Z.of_nat (length (daily_vol s))) as Hlen.
    { destruct (daily_vol s); [by apply elem_of_nil in Hk0|simpl; lia]. }
    destruct (keys (daily_vol s)) as [|k ks]; [by apply elem_of_nil in Hk0|].
    set (best := py_max float_ltb
                   (fun k => default float_zero (dict_get (daily_vol s) k)) k ks).
    assert (best ∈ k :: ks) as Hbest by apply py_max_elem.
    destruct (Hsome best Hbest) as [v Ev].
    apply Hsub, list_elem_of_fmap in Hbest as (t & Ht & Hin).
    exists t, v. rewrite Ev. by repeat split.
Qed.

End TimeFacts.

(** ** Failures of the analytics, the report and the loader *)

Lemma only_overflow_bind {A B} (m : result A) (k : A -> result B) :
  only_overflow m -> (forall a, only_overflow (k a)) -> only_overflow (rbind m k).
Proof.
  intros Hm Hk e. destruct m as [a|e']; simpl.
  - apply Hk.
  - intros [= <-]. by apply Hm.
Qed.

Lemma only_overflow_Ok {A} (a : A) : only_overflow (Ok a).
Proof. by intros e. Qed.

Section FailureFacts.
Context `{PyLib}.

Lemma mul_int_float_overflow q p : only_overflow (mul_int_float q p).
Proof.
  unfold mul_int_float. intros e.
  destruct (float_of_int q); simpl; [done|]. by intros [= <-].
Qed.

Lemma mul_int_float_fits t : fits t -> exists x, mul_int_float (quantity t) (price t) = Ok x.
Proof. unfold fits, mul_int_float. intros [x ->]. simpl. eauto. Qed.

Lemma dollar_volume_overflow l : only_overflow (dollar_volume l).
Proof.
  unfold dollar_volume. apply only_overflow_bind; [|intros; apply only_overflow_Ok].
  induction l as [|t l IH]; simpl; [apply only_overflow_Ok|].
  apply only_overflow_bind; [apply mul_int_float_overflow|]. intros x.
  apply only_overflow_bind; [done|]. intros; apply only_overflow_Ok.
Qed.

Lemma dollar_volume_fits l : Forall fits l -> exists v, dollar_volume l = Ok v.
Proof.
  unfold dollar_volume. intros Hl.
  assert (exists xs, mapM (fun t => mul_int_float (quantity t) (price t)) l = Ok xs)
    as [xs ->]; [|simpl; eauto].
  induction Hl as [|t l Ht _ [xs IH]]; simpl; [eauto|].
  destruct (mul_int_float_fits t Ht) as [x ->]. simpl. rewrite IH. simpl. eauto.
Qed.

Lemma volume_loop_overflow index volume : only_overflow (volume_loop volume index).
Proof.
  revert volume. induction index as [|[k g] index IH]; intros volume; simpl.
  - apply only_overflow_Ok.
  - apply only_overflow_bind; [apply dollar_volume_overflow|]. intros v. apply IH.
Qed.

Lemma volume_loop_fits index volume :
  Forall (fun kv => Forall fits (snd kv)) index ->
  exists res, volume_loop volume index = Ok res.
Proof.
  revert volume. induction index as [|[k g] index IH]; intros volume Hfit; simpl.
  - eauto.
  - apply Forall_cons in Hfit as [Hg Hfit]. simpl in Hg.
    destruct (dollar_volume_fits g Hg) as [v ->]. simpl. by apply IH.
Qed.

Lemma time_loop_overflow l s : only_overflow (time_loop s l).
Proof.
  revert s. induction l as [|t l IH]; intros s; simpl.
  - apply only_overflow_Ok.
  - apply only_overflow_bind; [|intros; apply IH].
    unfold time_step. apply only_overflow_bind; [apply mul_int_float_overflow|].
    intros; apply only_overflow_Ok.
Qed.

Lemma time_loop_fits l s : Forall fits l -> exists s', time_loop s l = Ok s'.
Proof.
  revert s. induction l as [|t l IH]; intros s Hfit; simpl; [eauto|].
  apply Forall_cons in Hfit as [Ht Hfit].
  unfold time_step. destruct (mul_int_float_fits t Ht) as [x ->]. simpl. by apply IH.
Qed.

Lemma get_summary_overflow transactions index :
  only_overflow (get_summary transactions index).
Proof.
  unfold get_summary.
  apply only_overflow_bind; [apply dollar_volume_overflow|]. intros v.
  apply only_overflow_bind.
  { unfold total_volume_by_ticker.
    apply only_overflow_bind; [apply volume_loop_overflow|].
    intros; apply only_overflow_Ok. }
  intros vol. apply only_overflow_bind; [|intros; apply only_overflow_Ok].
  unfold time_based_analysis.
  apply only_overflow_bind; [apply time_loop_overflow|].
  intros; apply only_overflow_Ok.
Qed.

Lemma get_summary_fits transactions index :
  Forall fits transactions ->
  Forall (fun kv => Forall fits (snd kv)) index ->
  exists s, get_summary transactions index = Ok s.
Proof.
  intros Ht Hi. unfold get_summary.
  destruct (dollar_volume_fits transactions Ht) as [v ->]. simpl.
  unfold total_volume_by_ticker.
  destruct (volume_loop_fits index [] Hi) as [vol ->]. simpl.
  unfold time_based_analysis.
  destruct (time_loop_fits transactions (mkt [] [] []) Ht) as [s ->]. simpl. eauto.
Qed.

(** [get_summary] can fail in one way only: with [OverflowError], when
    a quantity is too large to convert to a float. When the quantities
    of the sequence and of the index all convert, it returns. *)
Theorem get_summary_errors (transactions : list txn) (index : list (string * list txn)) :
  (forall e, get_summary transactions index = Raise e -> e = OverflowError) /\
  (Forall fits transactions ->
   Forall (fun kv => Forall fits (snd kv)) index ->
   exists s, get_summary transactions index = Ok s).
Proof.
  split; [apply get_summary_overflow|apply get_summary_fits].
Qed.

Lemma report_lines_fold (log : list (string * Z)) (lines : list string) :
  fold_left
    (fun lines kv => if 0 <? snd kv then lines ++ [removed_line kv] else lines)
    log lines
  = lines ++ map removed_line (filter (fun kv => 0 < snd kv) log).
Proof.
  revert lines. induction log as [|kv log IH]; intros lines; simpl.
  - by rewrite app_nil_r.
  - rewrite IH, filter_cons. destruct (Z.ltb_spec 0 (snd kv)).
    + rewrite decide_True by done. simpl. by rewrite <- app_assoc.
    + rewrite decide_False by lia. done.
Qed.

Lemma sum_counts_positive (log : list (string * Z)) :
  Forall (fun kv => 0 <= snd kv) log ->
  sum_counts (filter (fun kv => 0 < snd kv) log) = sum_counts log.
Proof.
  unfold sum_counts. induction 1 as [|kv log Hkv _ IH]; simpl; [done|].
  rewrite filter_cons. destruct (decide (0 < snd kv)); simpl; lia.
Qed.

Lemma clean_data_log_facts rows txns log :
  clean_data rows = Ok (txns, log) ->
  Forall (fun kv => 0 <= snd kv) log /\
  Z.of_nat (length rows) - Z.of_nat (length txns) = sum_counts log.
Proof.
  intros Hrun. apply clean_data_inv in Hrun as (s & Hloop & -> & ->).
  apply validate_loop_inv in Hloop as (_ & Hn & Hc).
  destruct Hn as (? & ? & ? & ? & ? & ? & ? & ?).
  { unfold counters_nonneg, vinit. simpl. lia. }
  destruct (dedupe_count rows (mkd [] [] 0)) as [Hd Hd'].
  fold (dedupe rows) in Hd, Hd'. simpl in Hd, Hd', Hc.
  rewrite (Permutation_length (sort_by_perm dt_ltb timestamp (clean s))).
  split.
  - unfold cleaning_log. repeat constructor; simpl; lia.
  - unfold sum_counts, cleaning_log, rejected_total, vinit in *. simpl in *. lia.
Qed.

(** The report on a run of [clean_data], as the dashboard prints it:
    the two row counts, an empty line, one line for each counter above
    zero in the order of the log, and a last line whose total is the sum
    of the counts listed. *)
Theorem cleaning_report_total (rows : list row) (txns : list txn)
    (log : list (string * Z)) :
  clean_data rows = Ok (txns, log) ->
  format_cleaning_log log (Z.of_nat (length rows)) (Z.of_nat (length txns))
  = String.concat newline
      ([ "Raw rows: " +:+ py_str_int (Z.of_nat (length rows));
         "Clean rows: " +:+ py_str_int (Z.of_nat (length txns));
         EmptyString ]
       ++ map removed_line (filter (fun kv => 0 < snd kv) log)
       ++ [ newline +:+ "Total removed: "
            +:+ py_str_int (sum_counts (filter (fun kv => 0 < snd kv) log)) ]).
Proof.
  intros Hrun. apply clean_data_log_facts in Hrun as [Hnn Hsum].
  unfold format_cleaning_log. rewrite report_lines_fold.
  rewrite sum_counts_positive, <- Hsum by done.
  by rewrite <- app_assoc.
Qed.

Lemma clean_data_csv_returns rs : exists r, clean_data (map csv_row rs) = Ok r.
Proof.
  destruct (dedupe_unique_csv rs (mkd [] [] 0)) as (us & _ & Hu).
  unfold clean_data. fold (dedupe (map csv_row rs)) in Hu. rewrite Hu.
  change (unique (mkd [] [] 0) ++ map csv_row us) with (map csv_row us).
  rewrite validate_loop_spec. unfold rbind. eauto.
Qed.

Lemma index_groups_fits transactions :
  Forall fits transactions ->
  Forall (fun kv => Forall fits (snd kv)) (build_ticker_index transactions).
Proof.
  intros Hfit. unfold build_ticker_index.
  change (fold_left _ transactions []) with (fold_left index_step transactions []).
  destruct (index_fold_inv transactions []) as (Hnd & _ & _); [constructor|constructor|].
  apply Forall_forall. intros [k g] Hin. simpl.
  pose proof (index_fold_get transactions [] k) as Hget.
  rewrite (dict_get_elem _ k g Hnd Hin) in Hget. simpl in Hget. subst g.
  apply Forall_forall. intros t Ht. apply list_elem_of_filter in Ht as [_ Ht].
  rewrite Forall_forall in Hfit. by apply Hfit.
Qed.

(** On the rows of a CSV file the loader of the dashboard can fail in
    one way only, with [OverflowError]; it returns when the quantity of
    every accepted transaction converts to a float. *)
Theorem load_data_errors (rs : list (list (string * string))) :
  (forall e, load_data (map csv_row rs) = Raise e -> e = OverflowError) /\
  ((forall txns log, clean_data (map csv_row rs) = Ok (txns, log) -> Forall fits txns) ->
   exists r, load_data (map csv_row rs) = Ok r).
Proof.
  unfold load_data.
  destruct (clean_data_csv_returns rs) as [[txns log] Hrun]. rewrite Hrun. simpl.
  split.
  - apply only_overflow_bind; [apply get_summary_overflow|].
    intros; apply only_overflow_Ok.
  - intros Hfit. specialize (Hfit txns log eq_refl).
    destruct (get_summary_fits txns (build_ticker_index txns) Hfit
                (index_groups_fits txns Hfit)) as [s ->].
    simpl. eauto.
Qed.

(** Every ticker that the dashboard offers for lookup finds
    transactions: in what the loader returns, each ticker of the summary
    is a ticker of the index under which [get_by_ticker] returns, not
    empty, the transactions of that ticker. *)
Theorem load_data_lookup (raw : list row) (txns : list txn)
    (index : list (string * list txn)) (analytics : summary) (text : string) :
  load_data raw = Ok (txns, index, analytics, text) ->
  forall k, k ∈ unique_tickers analytics ->
    get_by_ticker index k <> [] /\
    get_by_ticker index k = filter (fun t => ticker t = k) txns.
Proof.
  unfold load_data.
  destruct (clean_data raw) as [[txns' log]|] eqn:Hrun; simpl; [|done].
  destruct (get_summary txns' (build_ticker_index txns')) as [s|] eqn:Hs; simpl; [|done].
  intros [= <- <- <- <-] k Hk.
  apply get_summary_tickers in Hs. rewrite Hs, sort_by_perm in Hk.
  apply clean_data_inv in Hrun as (st & Hloop & -> & _).
  apply validate_loop_inv in Hloop as (Hvalid & _).
  specialize (Hvalid (Forall_nil_2 _)).
  set (txns := sort_by dt_ltb timestamp (clean st)) in *.
  assert (Forall valid_txn txns) as Hv by (unfold txns; by rewrite sort_by_perm).
  unfold get_by_ticker, build_ticker_index in *.
  change (fold_left _ txns []) with (fold_left index_step txns []) in *.
  destruct (index_fold_inv txns []) as (Hnd & Hne & _); [constructor|constructor|].
  pose proof (index_fold_get txns [] k) as Hget. simpl in Hget.
  destruct (dict_get (fold_left index_step txns []) k) as [g|] eqn:Eg;
    [|by apply dict_get_None in Eg].
  simpl in Hget. subst g.
  assert (filter (fun t => ticker t = k) txns <> []) as Hnonempty.
  { apply dict_get_Some_elem in Eg. rewrite Forall_forall in Hne. apply (Hne _ Eg). }
  assert (upper k = k) as Hupper.
  { destruct (filter (fun t => ticker t = k) txns) as [|t l] eqn:Ef; [done|].
    assert (t ∈ filter (fun t => ticker t = k) txns) as Hin
      by (rewrite Ef; apply list_elem_of_here).
    apply list_elem_of_filter in Hin as [<- Hin].
    rewrite Forall_forall in Hv. by destruct (Hv t Hin) as (_ & _ & _ & _ & ?). }
  rewrite Hupper, Eg. done.
Qed.

End FailureFacts.

(** ** The trader of a transaction *)

Section TraderFacts.
Context `{PyLib}.

Lemma unique_traders_with_blank (transactions : list txn) (t : txn) :
  t ∈ transactions -> trader_id t = EmptyString ->
  Z.of_nat (size (list_to_set (map trader_id transactions) : gset string))
  = 1 + Z.of_nat (size (list_to_set
          (filter (fun x => x <> EmptyString) (map trader_id transactions))
          : gset string)).
Proof.
  intros Hin Ht.
  assert ((list_to_set (map trader_id transactions) : gset string)
          = {[ EmptyString ]} ∪
            list_to_set (filter (fun x => x <> EmptyString) (map trader_id transactions)))
    as ->.
  { apply set_eq. intros x.
    rewrite elem_of_union, elem_of_singleton, !elem_of_list_to_set,
      list_elem_of_filter.
    split.
    - intros Hx. destruct (decide (x = EmptyString)); [by left|by right].
    - intros [->|[_ Hx]]; [|done].
      rewrite <- Ht. by apply list_elem_of_fmap_2. }
  rewrite size_union, size_singleton; [lia|].
  apply disjoint_singleton_l. rewrite elem_of_list_to_set, list_elem_of_filter.
  by intros [? _].
Qed.

(** C9: when a record passes every check, the trader of its transaction
    is the trimmed text of its [trader_id] field if the record has the
    field, and ["UNKNOWN"] only if it has not. So a blank field gives the
    empty string, and a summary over a sequence that holds such a
    transaction counts the empty string as one trader of its own: every
    summary that [get_summary] returns does, and [get_summary] returns
    one whenever the quantities convert to floats. *)
Theorem blank_trader_id (st : vstate) (r : list (string * string)) (t : txn) :
  validate_step st (csv_row r) = Ok (append_clean st t) ->
  (forall s, dict_get r "trader_id" = Some s -> trader_id t = strip s) /\
  (dict_get r "trader_id" = None -> trader_id t = "UNKNOWN") /\
  (forall s, dict_get r "trader_id" = Some s -> strip s = EmptyString ->
     trader_id t = EmptyString /\
     forall transactions index,
       t ∈ transactions ->
       (forall sm, get_summary transactions index = Ok sm ->
          unique_traders_count sm
          = 1 + Z.of_nat (size (list_to_set
                  (filter (fun x => x <> EmptyString) (map trader_id transactions))
                  : gset string))) /\
       (Forall fits transactions ->
        Forall (fun kv => Forall fits (snd kv)) index ->
        exists sm, get_summary transactions index = Ok sm /\
          unique_traders_count sm
          = 1 + Z.of_nat (size (list_to_set
                  (filter (fun x => x <> EmptyString) (map trader_id transactions))
                  : gset string)))).
Proof.
  rewrite validate_step_spec. intros [= E].
  apply record_outcome_accepted, spec_validate_accepted, spec_parse_trader_id in E.
  split; [|split].
  - intros s Hs. by rewrite E, Hs.
  - intros Hs. by rewrite E, Hs.
  - intros s Hs Hblank.
    assert (trader_id t = EmptyString) as Ht by (by rewrite E, Hs).
    split; [done|].
    intros transactions index Hin.
    assert (forall sm, get_summary transactions index = Ok sm ->
      unique_traders_count sm
      = 1 + Z.of_nat (size (list_to_set
              (filter (fun x => x <> EmptyString) (map trader_id transactions))
              : gset string))) as Hcount.
    { intros sm Hsm. apply get_summary_inv in Hsm as (_ & _ & _ & ->).
      by apply (unique_traders_with_blank transactions t). }
    split; [exact Hcount|].
    intros Hfit Hfiti.
    destruct (get_summary_fits transactions index Hfit Hfiti) as [sm Hsm].
    exists sm. split; [done|by apply Hcount].
Qed.

End TraderFacts.

(** * Examples on the reference runtime *)

Module Examples.
Import Reference Samples.

Example clean_data_example :
  clean_data (map csv_row [row_a; row_b; row_a'; row_c]) = Ok ([txn_a; txn_b], log_ab).
Proof. reflexivity. Qed.

Example clean_data_reordered :
  clean_data (map csv_row [row_b; row_c; row_a'; row_a]) = Ok ([txn_a; txn_b], log_ab).
Proof. reflexivity. Qed.

Lemma Qltb_asym x y : Qltb x y = true -> Qltb y x = false.
Proof.
  unfold Qltb. rewrite negb_true_iff, negb_false_iff, Qle_bool_iff.
  intros Hnle. apply Qlt_le_weak, Qnot_le_lt. intros Hle.
  apply Qle_bool_iff in Hle. congruence.
Qed.

Lemma Qltb_negtrans x y z : Qltb y x = false -> Qltb z y = false -> Qltb z x = false.
Proof.
  unfold Qltb. rewrite !negb_false_iff, !Qle_bool_iff. apply Qle_trans.
Qed.

Lemma num_ltb_val a b : num_ltb a b = Qltb (num_val a) (num_val b).
Proof.
  destruct a as [x|f], b as [y|g]; simpl; try done.
  unfold Qltb, Qle_bool. simpl. rewrite !Z.mul_1_r.
  destruct (Z.ltb_spec x y), (Z.leb_spec y x); simpl; try done; lia.
Qed.

Global Instance num_ltb_sorts : StrictWeak num_ltb.
Proof.
  split; intros *; rewrite !num_ltb_val; [apply Qltb_asym|apply Qltb_negtrans].
Qed.

(** The input of [dedupe_spec]: records with distinct field names. *)
Lemma dedupe_spec_witness :
  Forall (fun r => NoDup (keys r)) [row_a; row_b; row_a'] /\
  unique (dedupe (map csv_row [row_a; row_b; row_a'])) = map csv_row [row_a; row_b] /\
  dupes (dedupe (map csv_row [row_a; row_b; row_a'])) = 1.
Proof.
  assert (Forall (fun r => NoDup (keys r)) [row_a; row_b; row_a']) as Hnd.
  { apply (bool_decide_unpack _). vm_compute. exact I. }
  split; [exact Hnd|].
  destruct (dedupe_spec [row_a; row_b; row_a'] Hnd) as (Hu & Hd & _).
  split; [exact Hu|exact Hd].
Defined.

Example time_analysis_example : time_based_analysis [txn_a; txn_b] = Ok ta_ab.
Proof. reflexivity. Qed.

(** The peak hour of the two transactions is 15, the hour seen first. *)
Lemma peak_hour_first_seen_witness :
  exists ta, [txn_a; txn_b] <> [] /\
    time_based_analysis [txn_a; txn_b] = Ok ta /\
    exists h pre post,
      peak_hour ta = VInt h /\
      map hour_of [txn_a; txn_b] = pre ++ (h :: post) /\
      (h ∉ pre) /\
      (forall h', occurrences hour_of [txn_a; txn_b] h' <= occurrences hour_of [txn_a; txn_b] h) /\
      (forall h', h' ∈ pre ->
         occurrences hour_of [txn_a; txn_b] h' < occurrences hour_of [txn_a; txn_b] h).
Proof.
  eexists. split; [done|]. split; [reflexivity|].
  apply peak_hour_first_seen; [done|reflexivity].
Defined.

(** C4 fails as stated: the transactions of [row_a] and [row_b] are at
    15:00 and at 09:00 of the next day; both hours have one transaction,
    and the peak hour is 15, not 9. *)
Lemma peak_hour_not_smallest : ~ peak_hour_is_smallest.
Proof.
  intros Hclaim.
  assert (clean_data (map csv_row [row_a; row_b]) = Ok ([txn_a; txn_b], zero_log)) as Hrun.
  { reflexivity. }
  assert ([txn_a; txn_b] <> []) as Hne by discriminate.
  destruct (Hclaim _ _ _ _ Hrun Hne time_analysis_example) as (h & Hh & _ & Hmin).
  injection Hh as <-.
  specialize (Hmin 9 eq_refl). lia.
Qed.

Lemma clean_data_rerun_witness :
  clean_data (map csv_row [row_a; row_b; row_a'; row_c]) = Ok ([txn_a; txn_b], log_ab) /\
  clean_data (map txn_dict [txn_a; txn_b]) = Raise AttributeError.
Proof.
  split; [exact clean_data_example|].
  exact (clean_data_rerun _ _ _ clean_data_example).
Defined.

(** C5 fails as stated: a second run on the two transactions that the
    first run returns raises [AttributeError]. *)
Lemma rerun_is_not_clean : ~ rerun_is_clean.
Proof.
  intros Hclaim.
  destruct (Hclaim [row_a; row_b; row_a'; row_c] _ _ clean_data_example)
    as (log' & Hrun & _).
  assert (clean_data (map txn_dict [txn_a; txn_b]) = Raise AttributeError) as Hraise.
  { reflexivity. }
  rewrite Hraise in Hrun. discriminate Hrun.
Qed.

Lemma summary_counts_witness :
  exists s, get_summary [txn_a; txn_b] (build_ticker_index [txn_a; txn_b]) = Ok s /\
    total_buys s + total_sells s = total_transactions s /\
    total_transactions s = 2 /\
    total_buys s = 1.
Proof.
  eexists. split; [reflexivity|].
  apply (summary_counts [txn_a; txn_b] (build_ticker_index [txn_a; txn_b])).
  reflexivity.
Defined.


Lemma blank_trader_id_witness :
  validate_step vinit (csv_row row_a) = Ok (append_clean vinit txn_a) /\
  dict_get row_a "trader_id" = Some "  " /\
  trader_id txn_a = EmptyString /\
  get_summary [txn_a; txn_b] index_ab = Ok summary_ab /\
  unique_traders_count summary_ab
  = 1 + Z.of_nat (size (list_to_set
          (filter (fun x => x <> EmptyString) (map trader_id [txn_a; txn_b]))
          : gset string)).
Proof.
  assert (validate_step vinit (csv_row row_a) = Ok (append_clean vinit txn_a)) as Hstep.
  { reflexivity. }
  assert (get_summary [txn_a; txn_b] index_ab = Ok summary_ab) as Hsum.
  { reflexivity. }
  split; [exact Hstep|]. split; [reflexivity|].
  destruct (blank_trader_id vinit row_a txn_a Hstep) as (_ & _ & Hblank).
  destruct (Hblank "  " eq_refl eq_refl) as [Hempty Hcount].
  split; [exact Hempty|]. split; [exact Hsum|].
  destruct (Hcount [txn_a; txn_b] index_ab (list_elem_of_here _ _)) as [Hc _].
  exact (Hc summary_ab Hsum).
Defined.

Lemma bad_quantity_is_parse_error_witness :
  dict_get row_c "quantity" = Some " " /\
  validate_step vinit (csv_row row_c) = Ok (incr_parse_err vinit) /\
  dict_get row_d "quantity" = Some EmptyString /\
  validate_step vinit (csv_row row_d) = Ok (incr_missing_ts vinit).
Proof.
  assert (validate_step vinit (csv_row row_c) = Ok (incr_parse_err vinit) /\
          forall (st' : vstate) (r' : list (string * string)) (why : reason),
            first_failing
              [ (Missing_timestamp, spec_missing r' "timestamp");
                (Missing_ticker, spec_missing r' "ticker");
                (Missing_price, spec_missing r' "price");
                (Missing_action, spec_missing r' "action") ] = Some why ->
            validate_step st' (csv_row r') = Ok (record_outcome st' (Rejected why)) /\
            why <> Parse_errors /\
            forall q', validate_step st' (csv_row (dict_set r' "quantity" q'))
                       = validate_step st' (csv_row r')) as [Hparse Hfour].
  { apply (bad_quantity_is_parse_error vinit row_c); try reflexivity.
    left. reflexivity. }
  split; [reflexivity|]. split; [exact Hparse|]. split; [reflexivity|].
  exact (proj1 (Hfour vinit row_d Missing_timestamp eq_refl)).
Defined.

Lemma get_by_ticker_spec_witness :
  upper_in_range "aapl" /\
  codes (upper "aapl") = [65; 65; 80; 76] /\
  get_by_ticker index_ab "aapl" = [txn_a].
Proof.
  assert (upper_in_range "aapl") as Hq.
  { apply (bool_decide_unpack _). vm_compute. exact I. }
  destruct (get_by_ticker_spec index_ab "aapl" Hq) as (Hcodes & Hfound & _).
  split; [exact Hq|]. split; [exact Hcodes|].
  apply Hfound. reflexivity.
Defined.

(** Inputs of the further properties. *)

Lemma clean_data_valid_witness :
  clean_data (map csv_row [row_a; row_b; row_a'; row_c]) = Ok ([txn_a; txn_b], log_ab) /\
  Forall valid_txn [txn_a; txn_b].
Proof.
  split; [exact clean_data_example|].
  exact (clean_data_valid _ _ _ clean_data_example).
Defined.

Lemma clean_data_accounts_witness :
  clean_data (map csv_row [row_a; row_b; row_a'; row_c]) = Ok ([txn_a; txn_b], log_ab) /\
  4 = 2 + sum_counts log_ab.
Proof.
  split; [exact clean_data_example|].
  exact (clean_data_accounts _ _ _ clean_data_example).
Defined.

Lemma cleaning_log_shape_witness :
  clean_data (map csv_row [row_a; row_b; row_a'; row_c]) = Ok ([txn_a; txn_b], log_ab) /\
  Forall (fun kv => 0 <= snd kv) log_ab.
Proof.
  split; [exact clean_data_example|].
  exact (proj2 (cleaning_log_shape _ _ _ clean_data_example)).
Defined.

Lemma validate_step_field_order_witness :
  (forall k, dict_get row_a k = dict_get row_a' k) /\
  validate_step vinit (csv_row row_a) = validate_step vinit (csv_row row_a').
Proof.
  assert (forall k, dict_get row_a k = dict_get row_a' k) as Hsame.
  { apply same_mapping_spec. reflexivity. }
  split; [exact Hsame|].
  exact (validate_step_field_order vinit row_a row_a' Hsame).
Defined.

Lemma dedupe_idempotent_witness :
  Forall (fun r => NoDup (keys r)) [row_a; row_b; row_a'] /\
  dupes (dedupe (unique (dedupe (map csv_row [row_a; row_b; row_a'])))) = 0.
Proof.
  assert (Forall (fun r => NoDup (keys r)) [row_a; row_b; row_a']) as Hnd.
  { apply (bool_decide_unpack _). vm_compute. exact I. }
  split; [exact Hnd|].
  exact (proj2 (dedupe_idempotent _ Hnd)).
Defined.

Lemma unique_tickers_sorted_witness :
  exists s,
    NoDup (keys (build_ticker_index [txn_b; txn_a])) /\
    get_summary [txn_b; txn_a] (build_ticker_index [txn_b; txn_a]) = Ok s /\
    StronglySorted (fun a b => str_ltb a b = true) (unique_tickers s).
Proof.
  assert (NoDup (keys (build_ticker_index [txn_b; txn_a]))) as Hnd.
  { apply (bool_decide_unpack _). vm_compute. exact I. }
  eexists. split; [exact Hnd|]. split; [reflexivity|].
  refine (proj2 (unique_tickers_sorted [txn_b; txn_a] _ _ Hnd _)). reflexivity.
Defined.

Lemma time_range_segment_witness :
  StronglySorted (fun a b => dt_ltb (timestamp b) (timestamp a) = false) [txn_a; txn_b] /\
  exists before after,
    [txn_a; txn_b]
    = before ++ get_by_time_range [txn_a; txn_b] (mkdt 2024 1 2 0 0 0) (mkdt 2024 1 3 0 0 0)
        ++ after /\
    Forall (fun t => dt_ltb (timestamp t) (mkdt 2024 1 2 0 0 0) = true) before /\
    Forall (fun t => dt_ltb (mkdt 2024 1 3 0 0 0) (timestamp t) = true) after.
Proof.
  assert (StronglySorted (fun a b => dt_ltb (timestamp b) (timestamp a) = false)
            [txn_a; txn_b]) as Hs.
  { repeat constructor. }
  split; [exact Hs|]. exact (time_range_segment _ _ _ Hs).
Defined.

Lemma net_position_spec_witness :
  NoDup (keys (build_ticker_index [txn_a; txn_b; txn_a])) /\
  net_position_by_ticker (build_ticker_index [txn_a; txn_b; txn_a])
    ≡ₚ [("AAPL", 20); ("MSFT", -5)].
Proof.
  assert (NoDup (keys (build_ticker_index [txn_a; txn_b; txn_a]))) as Hnd.
  { apply (bool_decide_unpack _). vm_compute. exact I. }
  split; [exact Hnd|].
  exact (proj1 (proj2 (net_position_spec _ Hnd))).
Defined.

Lemma time_analysis_histograms_witness :
  time_based_analysis [txn_a; txn_b] = Ok ta_ab /\
  histogram Z.ltb hour_of [txn_a; txn_b] [(9, 1); (15, 1)].
Proof.
  split; [exact time_analysis_example|].
  exact (proj1 (time_analysis_histograms _ _ time_analysis_example)).
Defined.

Lemma trading_days_distinct_witness :
  time_based_analysis [txn_a; txn_b] = Ok ta_ab /\
  2 = Z.of_nat (size (list_to_set (map day_of [txn_a; txn_b]) : gset string)).
Proof.
  split; [exact time_analysis_example|].
  exact (trading_days_distinct _ _ time_analysis_example).
Defined.

Lemma time_analysis_sentinel_witness :
  time_based_analysis [txn_a; txn_b] = Ok ta_ab /\
  (VInt 15 = VStr "N/A" <-> [txn_a; txn_b] = []).
Proof.
  split; [exact time_analysis_example|].
  exact (proj1 (time_analysis_sentinel _ _ time_analysis_example)).
Defined.

Lemma cleaning_report_total_witness :
  clean_data (map csv_row [row_a; row_b; row_a'; row_c]) = Ok ([txn_a; txn_b], log_ab) /\
  format_cleaning_log log_ab 4 2
  = String.concat newline
      [ "Raw rows: 4"; "Clean rows: 2"; "";
        "  duplicates: 1 removed"; "  parse_errors: 1 removed";
        newline +:+ "Total removed: 2" ].
Proof.
  split; [exact clean_data_example|].
  exact (cleaning_report_total _ _ _ clean_data_example).
Defined.

Example load_data_example :
  load_data (map csv_row [row_a; row_b; row_a'; row_c])
  = Ok ([txn_a; txn_b], index_ab, summary_ab, report_ab).
Proof. reflexivity. Qed.

Lemma load_data_lookup_witness :
  load_data (map csv_row [row_a; row_b; row_a'; row_c])
    = Ok ([txn_a; txn_b], index_ab, summary_ab, report_ab) /\
  get_by_ticker index_ab "AAPL" <> [].
Proof.
  split; [exact load_data_example|].
  refine (proj1 (load_data_lookup _ _ _ _ _ load_data_example "AAPL" _)).
  apply list_elem_of_here.
Defined.

End Examples.
